(** * Plane primitive of the efficient RANSAC shape detection

    A shallow embedding of [CGAL::Shape_detection_3::Plane]
    (Point_set_shape_detection_3/include/CGAL/Shape_detection_3/Plane.h)
    and the proofs of its specification.

    The class is a template over [Traits], and what it computes depends
    on the number type [Traits::FT].  It is embedded for two number
    types, statement by statement in the same way:
    - the real numbers with the exact square root, in the first part:
      the class as it is over an exact field;
    - the binary64 numbers of IEEE 754, in the module [Binary64]: the
      class as it is over [double], each operation rounded to the
      nearest.
    What follows the control flow, the order of numbers or the layout of
    the containers is the same for both.  What rests on the value of an
    arithmetic expression is proved in exact arithmetic and says so; with
    binary64 numbers it holds up to rounding only, and the places where
    that breaks a statement of the specification are shown on the
    binary64 embedding.  The containers passed by reference
    ([std::vector]) are lists; an access outside the bounds, undefined in
    C++, makes the operation return [None]. *)

From Stdlib Require Import Floats.
From Stdlib Require Import Reals Lra Lia Bool QArith Qabs.
From stdpp Require Import base option list.

Open Scope R_scope.
Set Warnings "-inexact-float".

(** ** The kernel in exact arithmetic: number type, points and vectors *)

Module Kernel.

(** [typedef typename Traits::FT FT] *)
Abbreviation FT := R (only parsing).

Record Vector_3 : Type := mkVector { vx : FT; vy : FT; vz : FT }.
Record Point_3 : Type := mkPoint { px : FT; py : FT; pz : FT }.

(** [p - q] on points. *)
Definition psub (p q : Point_3) : Vector_3 :=
  mkVector (px p - px q) (py p - py q) (pz p - pz q).

(** [p + v], a point translated by a vector. *)
Definition padd (p : Point_3) (v : Vector_3) : Point_3 :=
  mkPoint (px p + vx v) (py p + vy v) (pz p + vz v).

(** [v * w] on vectors is the scalar product. *)
Definition dot (v w : Vector_3) : FT :=
  vx v * vx w + vy v * vy w + vz v * vz w.

(** [v * c], a vector scaled by a number. *)
Definition scale (v : Vector_3) (c : FT) : Vector_3 :=
  mkVector (vx v * c) (vy v * c) (vz v * c).


Definition cross_product (v w : Vector_3) : Vector_3 :=
  mkVector (vy v * vz w - vz v * vy w)
           (vz v * vx w - vx v * vz w)
           (vx v * vy w - vy v * vx w).

Definition squared_length (v : Vector_3) : FT := dot v v.

(** [CGAL::abs], [std::min<FT>] and [std::max<FT>]. *)
Definition abs (x : FT) : FT := Rabs x.
Definition std_min (a b : FT) : FT := if Rlt_dec b a then b else a.
Definition std_max (a b : FT) : FT := if Rlt_dec a b then b else a.

(** The length [CGAL::sqrt(v.squared_length())]. *)
Definition vlength (v : Vector_3) : FT := sqrt (squared_length v).

End Kernel.
Export Kernel.

Declare Scope geom_scope.
Delimit Scope geom_scope with geom.
Infix "⊖" := psub (at level 50, left associativity) : geom_scope.
Infix "⊕" := padd (at level 50, left associativity) : geom_scope.
Infix "·" := dot (at level 40, left associativity) : geom_scope.
Infix "⊙" := scale (at level 40, left associativity) : geom_scope.
Open Scope geom_scope.

(** ** Containers and loops *)

(** [v[i]] read and written on a [std::vector]; [None] outside the bounds. *)
Definition vec_get {A : Type} (v : list A) (i : nat) : option A := v !! i.

Definition vec_set {A : Type} (v : list A) (i : nat) (x : A) : option (list A) :=
  if decide (i < length v)%nat then Some (<[i := x]> v) else None.

(** What one iteration of a loop body leaves: go on, or [return] from the
    enclosing function. *)
Inductive flow (St : Type) : Type :=
| Next (s : St)
| Return (s : St).
Arguments Next {St} s.
Arguments Return {St} s.

(** [for (i = lo; i < lo + n; i++) body]. *)
Fixpoint for_loop {St : Type} (body : nat -> St -> option (flow St))
    (lo n : nat) (s : St) : option (flow St) :=
  match n with
  | O => Some (Next s)
  | S n' =>
      match body lo s with
      | Some (Next s') => for_loop body (S lo) n' s'
      | r => r
      end
  end.

(** ** The plane *)

(** The fields of [Plane], with the two of [Shape_base] that the class
    uses: [m_is_valid] and [m_normal_threshold]. *)
Record Plane : Type := mkPlane {
  m_is_valid : bool;
  m_normal_threshold : FT;
  m_point_on_primitive : Point_3;
  m_base1 : Vector_3;
  m_base2 : Vector_3;
  m_normal : Vector_3;
  m_d : FT
}.

Definition set_is_valid (b : bool) (s : Plane) : Plane :=
  mkPlane b (m_normal_threshold s) (m_point_on_primitive s)
          (m_base1 s) (m_base2 s) (m_normal s) (m_d s).
Definition set_point_on_primitive (p : Point_3) (s : Plane) : Plane :=
  mkPlane (m_is_valid s) (m_normal_threshold s) p
          (m_base1 s) (m_base2 s) (m_normal s) (m_d s).
Definition set_base1 (v : Vector_3) (s : Plane) : Plane :=
  mkPlane (m_is_valid s) (m_normal_threshold s) (m_point_on_primitive s)
          v (m_base2 s) (m_normal s) (m_d s).
Definition set_base2 (v : Vector_3) (s : Plane) : Plane :=
  mkPlane (m_is_valid s) (m_normal_threshold s) (m_point_on_primitive s)
          (m_base1 s) v (m_normal s) (m_d s).
Definition set_normal (v : Vector_3) (s : Plane) : Plane :=
  mkPlane (m_is_valid s) (m_normal_threshold s) (m_point_on_primitive s)
          (m_base1 s) (m_base2 s) v (m_d s).
Definition set_d (d : FT) (s : Plane) : Plane :=
  mkPlane (m_is_valid s) (m_normal_threshold s) (m_point_on_primitive s)
          (m_base1 s) (m_base2 s) (m_normal s) d.

Section Plane_operations.

(** The point cloud of [Shape_base]: [this->point(i)] and
    [this->normal(i)], defined for every index the caller passes. *)
Variable point : nat -> Point_3.
Variable normal : nat -> Vector_3.

(** [FT squared_distance(const Point_3 &p) const] *)
Definition squared_distance (s : Plane) (p : Point_3) : FT :=
  let d := (p ⊖ m_point_on_primitive s) · m_normal s in
  d * d.

(** The statements of [create_shape] that set the anchor and the two
    base vectors (lines 131 to 136). *)
Definition set_frame (p1 p2 : Point_3) (s : Plane) : Plane :=
  let s := set_point_on_primitive p1 s in
  let s := set_base1 (cross_product (p1 ⊖ p2) (m_normal s)) s in
  let s := set_base1 (m_base1 s ⊙ (1 / sqrt (squared_length (m_base1 s)))) s in
  let s := set_base2 (cross_product (m_base1 s) (m_normal s)) s in
  let s := set_base2 (m_base2 s ⊙ (1 / sqrt (squared_length (m_base2 s)))) s in
  s.

(** The body of the loop that checks the deviation of the 3 normals. *)
Definition check_body (indices : list nat) (p1 p2 : Point_3)
    (i : nat) (s : Plane) : option (flow Plane) :=
  idx ← vec_get indices i;
  let l_v := normal idx in
  if Rlt_dec (abs (l_v · m_normal s))
             (m_normal_threshold s * sqrt (squared_length l_v))
  then Some (Return (set_is_valid false s))
  else Some (Next (set_frame p1 p2 s)).

(** [virtual void create_shape(const std::vector<std::size_t> &indices)] *)
Definition create_shape (indices : list nat) (s : Plane) : option Plane :=
  i0 ← vec_get indices 0;
  i1 ← vec_get indices 1;
  i2 ← vec_get indices 2;
  let p1 := point i0 in
  let p2 := point i1 in
  let p3 := point i2 in
  let s := set_normal (cross_product (p1 ⊖ p2) (p1 ⊖ p3)) s in
  let length := sqrt (squared_length (m_normal s)) in
  if Rlt_dec length 0.0001 then Some s
  else
    let s := set_normal (m_normal s ⊙ (1 / length)) s in
    let s := set_d (- (px p1 * vx (m_normal s) + py p1 * vy (m_normal s)
                       + pz p1 * vz (m_normal s))) s in
    r ← for_loop (check_body indices p1 p2) 0 3 s;
    match r with
    | Return s => Some s
    | Next s => Some (set_is_valid true s)
    end.

(** The variant the specification compares with: the loop only checks
    the normals, the anchor and the base vectors are set once after it. *)
Definition check_only_body (indices : list nat)
    (i : nat) (s : Plane) : option (flow Plane) :=
  idx ← vec_get indices i;
  let l_v := normal idx in
  if Rlt_dec (abs (l_v · m_normal s))
             (m_normal_threshold s * sqrt (squared_length l_v))
  then Some (Return (set_is_valid false s))
  else Some (Next s).

Definition create_shape_hoisted (indices : list nat) (s : Plane) : option Plane :=
  i0 ← vec_get indices 0;
  i1 ← vec_get indices 1;
  i2 ← vec_get indices 2;
  let p1 := point i0 in
  let p2 := point i1 in
  let p3 := point i2 in
  let s := set_normal (cross_product (p1 ⊖ p2) (p1 ⊖ p3)) s in
  let length := sqrt (squared_length (m_normal s)) in
  if Rlt_dec length 0.0001 then Some s
  else
    let s := set_normal (m_normal s ⊙ (1 / length)) s in
    let s := set_d (- (px p1 * vx (m_normal s) + py p1 * vy (m_normal s)
                       + pz p1 * vz (m_normal s))) s in
    r ← for_loop (check_only_body indices) 0 3 s;
    match r with
    | Return s => Some s
    | Next s => Some (set_is_valid true (set_frame p1 p2 s))
    end.

(** The output arguments of [parameters]: the vector of pairs and the two
    arrays [FT min[2]], [FT max[2]]. *)
Record Parameters : Type := mkParameters {
  parameterSpace : list (FT * FT);
  min0 : FT; min1 : FT;
  max0 : FT; max1 : FT
}.

Definition parameters_body (s : Plane) (indices : list nat)
    (i : nat) (o : Parameters) : option (flow Parameters) :=
  idx ← vec_get indices i;
  let p := point idx ⊖ m_point_on_primitive s in
  let u := p · m_base1 s in
  let v := p · m_base2 s in
  let mn0 := std_min (min0 o) u in
  let mx0 := std_max (max0 o) u in
  let mn1 := std_min (min1 o) v in
  let mx1 := std_max (max1 o) v in
  ps ← vec_set (parameterSpace o) i (u, v);
  Some (Next (mkParameters ps mn0 mn1 mx0 mx1)).

(** [virtual void parameters(indices, parameterSpace, min, max) const];
    the values [min] and [max] hold on entry are overwritten. *)
Definition parameters (s : Plane) (indices : list nat)
    (parameterSpace0 : list (FT * FT)) : option Parameters :=
  idx ← vec_get indices 0;
  let p := point idx ⊖ m_point_on_primitive s in
  let u := p · m_base1 s in
  let v := p · m_base2 s in
  ps ← vec_set parameterSpace0 0%nat (u, v);
  r ← for_loop (parameters_body s indices) 1 (length indices - 1)
        (mkParameters ps u v u v);
  match r with
  | Next o | Return o => Some o
  end.

Definition squared_distance_body (s : Plane) (indices : list nat)
    (i : nat) (dists : list FT) : option (flow (list FT)) :=
  idx ← vec_get indices i;
  let d := (point idx ⊖ m_point_on_primitive s) · m_normal s in
  dists ← vec_set dists i (d * d);
  Some (Next dists).

(** [virtual void squared_distance(indices, dists)] *)
Definition squared_distance_batch (s : Plane) (indices : list nat)
    (dists : list FT) : option (list FT) :=
  r ← for_loop (squared_distance_body s indices) 0 (length indices) dists;
  match r with
  | Next o | Return o => Some o
  end.

Definition cos_to_normal_body (s : Plane) (indices : list nat)
    (i : nat) (angles : list FT) : option (flow (list FT)) :=
  idx ← vec_get indices i;
  angles ← vec_set angles i (abs (normal idx · m_normal s));
  Some (Next angles).

(** [virtual void cos_to_normal(indices, angles) const] *)
Definition cos_to_normal_batch (s : Plane) (indices : list nat)
    (angles : list FT) : option (list FT) :=
  r ← for_loop (cos_to_normal_body s indices) 0 (length indices) angles;
  match r with
  | Next o | Return o => Some o
  end.

(** [FT cos_to_normal(const Point_3 &p, const Vector_3 &n) const] *)
Definition cos_to_normal (s : Plane) (p : Point_3) (n : Vector_3) : FT :=
  abs (n · m_normal s).

Definition minimum_sample_size : nat := 3.
Definition supports_connected_component : bool := true.
Definition wraps_u : bool := false.
Definition wraps_v : bool := false.

End Plane_operations.

(** ** The conversion and the accessors *)

(** Modelled from the spec: the type [Traits::Plane_3], which the traits
    class declares and Plane.h only names; it holds the four coefficients
    of the plane [a x + b y + c z + d = 0]. *)
Record Plane_3 : Type := mkPlane_3 { pa : FT; pb : FT; pc : FT; pd : FT }.

(** [operator Plane_3() const] *)
Definition to_Plane_3 (s : Plane) : Plane_3 :=
  mkPlane_3 (vx (m_normal s)) (vy (m_normal s)) (vz (m_normal s)) (m_d s).

(** [Vector_3 plane_normal() const] and [FT d() const] *)
Definition plane_normal (s : Plane) : Vector_3 := m_normal s.
Definition d (s : Plane) : FT := m_d s.

(** ** The binary64 instantiation *)

(** The class with [Traits::FT] the double precision numbers of IEEE 754:
    every operation of the number type rounds to the nearest, and the
    comparisons are the ones of the floating-point numbers.  The kernel
    operations are the Cartesian formulas, coordinate by coordinate; the
    statements of the class are the same as above. *)
Module Binary64.

Local Open Scope float_scope.

(** [typedef typename Traits::FT FT] *)
Abbreviation FT := float (only parsing).

Record Vector_3 : Type := mkVector { vx : FT; vy : FT; vz : FT }.
Record Point_3 : Type := mkPoint { px : FT; py : FT; pz : FT }.

Definition psub (p q : Point_3) : Vector_3 :=
  mkVector (px p - px q) (py p - py q) (pz p - pz q).

Definition dot (v w : Vector_3) : FT :=
  vx v * vx w + vy v * vy w + vz v * vz w.

Definition scale (v : Vector_3) (c : FT) : Vector_3 :=
  mkVector (vx v * c) (vy v * c) (vz v * c).

Definition cross_product (v w : Vector_3) : Vector_3 :=
  mkVector (vy v * vz w - vz v * vy w)
           (vz v * vx w - vx v * vz w)
           (vx v * vy w - vy v * vx w).

Definition squared_length (v : Vector_3) : FT := dot v v.

(** [CGAL::abs] and [CGAL::sqrt]. *)
Definition abs (x : FT) : FT := PrimFloat.abs x.
Definition sqrt (x : FT) : FT := PrimFloat.sqrt x.

Record Plane : Type := mkPlane {
  m_is_valid : bool;
  m_normal_threshold : FT;
  m_point_on_primitive : Point_3;
  m_base1 : Vector_3;
  m_base2 : Vector_3;
  m_normal : Vector_3;
  m_d : FT
}.

Definition set_is_valid (b : bool) (s : Plane) : Plane :=
  mkPlane b (m_normal_threshold s) (m_point_on_primitive s)
          (m_base1 s) (m_base2 s) (m_normal s) (m_d s).
Definition set_point_on_primitive (p : Point_3) (s : Plane) : Plane :=
  mkPlane (m_is_valid s) (m_normal_threshold s) p
          (m_base1 s) (m_base2 s) (m_normal s) (m_d s).
Definition set_base1 (v : Vector_3) (s : Plane) : Plane :=
  mkPlane (m_is_valid s) (m_normal_threshold s) (m_point_on_primitive s)
          v (m_base2 s) (m_normal s) (m_d s).
Definition set_base2 (v : Vector_3) (s : Plane) : Plane :=
  mkPlane (m_is_valid s) (m_normal_threshold s) (m_point_on_primitive s)
          (m_base1 s) v (m_normal s) (m_d s).
Definition set_normal (v : Vector_3) (s : Plane) : Plane :=
  mkPlane (m_is_valid s) (m_normal_threshold s) (m_point_on_primitive s)
          (m_base1 s) (m_base2 s) v (m_d s).
Definition set_d (d : FT) (s : Plane) : Plane :=
  mkPlane (m_is_valid s) (m_normal_threshold s) (m_point_on_primitive s)
          (m_base1 s) (m_base2 s) (m_normal s) d.

Section Plane_operations.

Variable point : nat -> Point_3.
Variable normal : nat -> Vector_3.

(** [FT squared_distance(const Point_3 &p) const] *)
Definition squared_distance (s : Plane) (p : Point_3) : FT :=
  let d := dot (psub p (m_point_on_primitive s)) (m_normal s) in
  d * d.

Definition set_frame (p1 p2 : Point_3) (s : Plane) : Plane :=
  let s := set_point_on_primitive p1 s in
  let s := set_base1 (cross_product (psub p1 p2) (m_normal s)) s in
  let s := set_base1 (scale (m_base1 s)
                        (1 / sqrt (squared_length (m_base1 s)))) s in
  let s := set_base2 (cross_product (m_base1 s) (m_normal s)) s in
  let s := set_base2 (scale (m_base2 s)
                        (1 / sqrt (squared_length (m_base2 s)))) s in
  s.

Definition check_body (indices : list nat) (p1 p2 : Point_3)
    (i : nat) (s : Plane) : option (flow Plane) :=
  idx ← vec_get indices i;
  let l_v := normal idx in
  if abs (dot l_v (m_normal s))
     <? m_normal_threshold s * sqrt (squared_length l_v)
  then Some (Return (set_is_valid false s))
  else Some (Next (set_frame p1 p2 s)).

(** [virtual void create_shape(const std::vector<std::size_t> &indices)] *)
Definition create_shape (indices : list nat) (s : Plane) : option Plane :=
  i0 ← vec_get indices 0;
  i1 ← vec_get indices 1;
  i2 ← vec_get indices 2;
  let p1 := point i0 in
  let p2 := point i1 in
  let p3 := point i2 in
  let s := set_normal (cross_product (psub p1 p2) (psub p1 p3)) s in
  let length := sqrt (squared_length (m_normal s)) in
  if length <? 0.0001 then Some s
  else
    let s := set_normal (scale (m_normal s) (1 / length)) s in
    let s := set_d (- (px p1 * vx (m_normal s) + py p1 * vy (m_normal s)
                       + pz p1 * vz (m_normal s))) s in
    r ← for_loop (check_body indices p1 p2) 0 3 s;
    match r with
    | Return s => Some s
    | Next s => Some (set_is_valid true s)
    end.

Definition cos_to_normal_body (s : Plane) (indices : list nat)
    (i : nat) (angles : list FT) : option (flow (list FT)) :=
  idx ← vec_get indices i;
  angles ← vec_set angles i (abs (dot (normal idx) (m_normal s)));
  Some (Next angles).

(** [virtual void cos_to_normal(indices, angles) const] *)
Definition cos_to_normal_batch (s : Plane) (indices : list nat)
    (angles : list FT) : option (list FT) :=
  r ← for_loop (cos_to_normal_body s indices) 0 (length indices) angles;
  match r with
  | Next o | Return o => Some o
  end.

(** [FT cos_to_normal(const Point_3 &p, const Vector_3 &n) const] *)
Definition cos_to_normal (s : Plane) (p : Point_3) (n : Vector_3) : FT :=
  abs (dot n (m_normal s)).

End Plane_operations.

(** The length that [create_shape] computes for the cross product of
    the edges of a sample, the normal that it stores, and its two tests:
    is the length below 0.0001, and does the supplied normal [n] fail
    against the normal [nrm] of the plane? *)
Definition sample_cross (p1 p2 p3 : Point_3) : Vector_3 :=
  cross_product (psub p1 p2) (psub p1 p3).

Definition sample_length (p1 p2 p3 : Point_3) : FT :=
  sqrt (squared_length (sample_cross p1 p2 p3)).

Definition fitted_normal (p1 p2 p3 : Point_3) : Vector_3 :=
  scale (sample_cross p1 p2 p3) (1 / sample_length p1 p2 p3).

Definition too_short (p1 p2 p3 : Point_3) : bool :=
  sample_length p1 p2 p3 <? 0.0001.

Definition deviates (threshold : FT) (n nrm : Vector_3) : bool :=
  abs (dot n nrm) <? threshold * sqrt (squared_length n).

(** The plane after lines 108 to 118 of [create_shape]. *)
Definition with_equation (p1 p2 p3 : Point_3) (s : Plane) : Plane :=
  let n := fitted_normal p1 p2 p3 in
  set_d (- (px p1 * vx n + py p1 * vy n + pz p1 * vz n)) (set_normal n s).

(** Modelled from the spec: the constructor [Shape_base()], which is
    declared in Shape_base.h and not in Plane.h; the specification has
    [is_valid] false until the fitting step sets it.  The threshold is the
    given one, and the geometric fields, which no constructor sets, are
    null here. *)
Definition new_plane (threshold : FT) : Plane :=
  mkPlane false threshold (mkPoint 0 0 0)
          (mkVector 0 0 0) (mkVector 0 0 0) (mkVector 0 0 0) 0.

(** The sample of the specification and its normals (0,0,1). *)
Definition sample_point (i : nat) : Point_3 :=
  match i with
  | O => mkPoint 0 0 0
  | S O => mkPoint 1 0 0
  | _ => mkPoint 0 1 0
  end.

Definition upward_normal (i : nat) : Vector_3 := mkVector 0 0 1.

(** The plane that [create_shape] leaves for that sample, with the
    threshold 0.9. *)
Definition fitted_example : Plane :=
  set_is_valid true
    (set_frame (sample_point 0) (sample_point 1)
       (with_equation (sample_point 0) (sample_point 1) (sample_point 2)
          (new_plane 0.9))).

(** Three points on a line: (0,0,0), (1,0,0), (2,0,0). *)
Definition collinear_point (i : nat) : Point_3 :=
  match i with
  | O => mkPoint 0 0 0
  | S O => mkPoint 1 0 0
  | _ => mkPoint 2 0 0
  end.

(** The supplied normal of the point [k] is (1,0,0), the others are
    (0,0,1); and the same with (1,0,0) at the points from [k] on. *)
Definition sideways_at (k : nat) (i : nat) : Vector_3 :=
  if decide (i = k) then mkVector 1 0 0 else mkVector 0 0 1.

Definition sideways_from (k : nat) (i : nat) : Vector_3 :=
  if decide (k <= i)%nat then mkVector 1 0 0 else mkVector 0 0 1.




(** The triangle (1,0,0), (0,1,0), (0,0,1), and the supplied normals
    (1,1,1). *)
Definition corner_point (i : nat) : Point_3 :=
  match i with
  | O => mkPoint 1 0 0
  | S O => mkPoint 0 1 0
  | _ => mkPoint 0 0 1
  end.

Definition diagonal_normal (i : nat) : Vector_3 := mkVector 1 1 1.

End Binary64.

(** The number that a finite binary64 number stands for, as a fraction;
    0 for the infinities and the results that are not numbers. *)
Definition exact (x : float) : Q :=
  match Prim2SF x with
  | S754_finite s m e =>
      ((if s then -1 else 1) * inject_Z (Z.pos m) * Qpower 2 e)%Q
  | _ => 0%Q
  end.





(** ** Notions the statements use *)


(** The vector [cross(p1 - p2, p1 - p3)] of a sample, and the same vector
    scaled to the normal that [create_shape] stores. *)
Definition sample_cross (p1 p2 p3 : Point_3) : Vector_3 :=
  cross_product (p1 ⊖ p2) (p1 ⊖ p3).

(** [v * (1 / CGAL::sqrt(v.squared_length()))], the way the class scales a
    vector to length one. *)
Definition normalized (v : Vector_3) : Vector_3 := v ⊙ (1 / vlength v).

Definition fitted_normal (p1 p2 p3 : Point_3) : Vector_3 :=
  normalized (sample_cross p1 p2 p3).

(** The test of the loop of [create_shape], for the supplied normal [n]
    against the plane normal [nrm], and its negation. *)
Definition deviates (threshold : FT) (n nrm : Vector_3) : Prop :=
  abs (n · nrm) < threshold * vlength n.

Definition consistent (threshold : FT) (n nrm : Vector_3) : Prop :=
  threshold * vlength n <= abs (n · nrm).

(** The plane after lines 108 to 118 of [create_shape]: normal and [m_d]
    are set, the other fields are the ones on entry. *)
Definition with_equation (p1 p2 p3 : Point_3) (s : Plane) : Plane :=
  let n := fitted_normal p1 p2 p3 in
  set_d (- (px p1 * vx n + py p1 * vy n + pz p1 * vz n)) (set_normal n s).

(** A vector of length one, and two vectors at a right angle. *)
Definition unit_length (v : Vector_3) : Prop := vlength v = 1.

(** A plane that [create_shape] has fitted with success from a newly
    constructed object, in which [m_is_valid] is false and the other
    fields hold any values. *)
Definition valid_plane (point : nat -> Point_3) (normal : nat -> Vector_3)
    (s : Plane) : Prop :=
  exists (indices : list nat) (s0 : Plane),
    m_is_valid s0 = false /\
    create_shape point normal indices s0 = Some s /\
    m_is_valid s = true.


(** The coordinates that [parameters] computes for the point [p]. *)
Definition to_parameters (s : Plane) (p : Point_3) : FT * FT :=
  ((p ⊖ m_point_on_primitive s) · m_base1 s,
   (p ⊖ m_point_on_primitive s) · m_base2 s).

(** The body of a loop that writes [f indices[i]] to [out[i]]. *)
Definition writes_each {A : Type} (f : nat -> A) (indices : list nat)
    (body : nat -> list A -> option (flow (list A))) : Prop :=
  forall (i : nat) (out : list A),
    body i out
    = (idx ← vec_get indices i; out' ← vec_set out i (f idx); Some (Next out')).

(** The state of a loop that writes [f indices[j]] to [out[j]], after [n]
    iterations: the first [n] entries are written, the others are the ones
    of the vector [out0] on entry, and the size has not changed. *)
Definition written_up_to {A : Type} (f : nat -> A) (indices : list nat)
    (out0 out : list A) (n : nat) : Prop :=
  length out = length out0 /\
  (forall (j idx : nat),
     (j < n)%nat -> indices !! j = Some idx -> out !! j = Some (f idx)) /\
  (forall j : nat, (n <= j)%nat -> out !! j = out0 !! j).

(** The bounds [min] and [max] of [parameters] after [n] points: they
    enclose the coordinates of each of the points, and each bound is the
    coordinate of one of them. *)
Definition bounds_up_to (uv : nat -> FT * FT) (indices : list nat)
    (o : Parameters) (n : nat) : Prop :=
  (forall (j idx : nat),
     (j < n)%nat -> indices !! j = Some idx ->
     min0 o <= fst (uv idx) <= max0 o /\ min1 o <= snd (uv idx) <= max1 o) /\
  (exists (j idx : nat),
     (j < n)%nat /\ indices !! j = Some idx /\ min0 o = fst (uv idx)) /\
  (exists (j idx : nat),
     (j < n)%nat /\ indices !! j = Some idx /\ max0 o = fst (uv idx)) /\
  (exists (j idx : nat),
     (j < n)%nat /\ indices !! j = Some idx /\ min1 o = snd (uv idx)) /\
  (exists (j idx : nat),
     (j < n)%nat /\ indices !! j = Some idx /\ max1 o = snd (uv idx)).

(** The origin, to read a point as a vector in [normal · p + d]. *)
Definition ORIGIN : Point_3 := mkPoint 0 0 0.

(** The coordinates of the point of the cloud with the index [idx]. *)
Definition point_parameters (point : nat -> Point_3) (s : Plane)
    (idx : nat) : FT * FT :=
  to_parameters s (point idx).

(** ** Data of the examples *)

(** The sample of the specification, (0,0,0), (1,0,0), (0,1,0), at the
    indices 0, 1 and 2 of the point cloud. *)
Definition sample_point (i : nat) : Point_3 :=
  match i with
  | O => mkPoint 0 0 0
  | S O => mkPoint 1 0 0
  | _ => mkPoint 0 1 0
  end.

(** Three points on a line: (0,0,0), (1,0,0), (2,0,0). *)
Definition collinear_point (i : nat) : Point_3 :=
  match i with
  | O => mkPoint 0 0 0
  | S O => mkPoint 1 0 0
  | _ => mkPoint 2 0 0
  end.

(** Every supplied normal is (0,0,1). *)
Definition upward_normal (i : nat) : Vector_3 := mkVector 0 0 1.

(** The supplied normal of the point [k] is (1,0,0), the others are
    (0,0,1). *)
Definition sideways_at (k : nat) (i : nat) : Vector_3 :=
  if decide (i = k) then mkVector 1 0 0 else mkVector 0 0 1.

(** Modelled from the spec: the constructor [Shape_base()], which is
    declared in Shape_base.h and not in Plane.h; the specification has
    [is_valid] false until the fitting step sets it.  The threshold is the
    given one, and the geometric fields, which no constructor sets, are
    null here. *)
Definition new_plane (threshold : FT) : Plane :=
  mkPlane false threshold (mkPoint 0 0 0)
          (mkVector 0 0 0) (mkVector 0 0 0) (mkVector 0 0 0) 0.

(** The supplied normals of the points from [k] on are (1,0,0), the
    others are (0,0,1). *)
Definition sideways_from (k : nat) (i : nat) : Vector_3 :=
  if decide (k <= i)%nat then mkVector 1 0 0 else mkVector 0 0 1.

(** The plane that [create_shape] leaves for the sample of the
    specification, with the threshold 0.9. *)
Definition fitted_example : Plane :=
  set_is_valid true
    (set_frame (sample_point 0) (sample_point 1)
       (with_equation (sample_point 0) (sample_point 1) (sample_point 2)
          (new_plane 0.9))).

(** ** Vectors *)

Section Vector_lemmas.

Implicit Types (v w a b : Vector_3) (c : FT).

Lemma vector_eq v w :
  vx v = vx w -> vy v = vy w -> vz v = vz w -> v = w.
Proof. destruct v, w; simpl; intros; subst; reflexivity. Qed.


Lemma dot_comm v w : v · w = w · v.
Proof. unfold dot; ring. Qed.

Lemma dot_scale_l v w c : (v ⊙ c) · w = c * (v · w).
Proof. unfold dot, scale; simpl; ring. Qed.

Lemma dot_scale_r v w c : v · (w ⊙ c) = c * (v · w).
Proof. unfold dot, scale; simpl; ring. Qed.

Lemma squared_length_nonneg v : 0 <= squared_length v.
Proof. unfold squared_length, dot; nra. Qed.

Lemma squared_length_scale v c :
  squared_length (v ⊙ c) = c * c * squared_length v.
Proof. unfold squared_length, dot, scale; simpl; ring. Qed.

Lemma cross_dot_l a b : a · cross_product a b = 0.
Proof. unfold dot, cross_product; simpl; ring. Qed.

Lemma cross_dot_r a b : b · cross_product a b = 0.
Proof. unfold dot, cross_product; simpl; ring. Qed.

(** Lagrange's identity. *)
Lemma squared_length_cross a b :
  squared_length (cross_product a b)
  = squared_length a * squared_length b - (a · b) * (a · b).
Proof. unfold squared_length, dot, cross_product; simpl; ring. Qed.

Lemma cauchy_schwarz a b :
  (a · b) * (a · b) <= squared_length a * squared_length b.
Proof.
  pose proof (squared_length_nonneg (cross_product a b)) as H.
  rewrite squared_length_cross in H. lra.
Qed.

Lemma vlength_nonneg v : 0 <= vlength v.
Proof. apply sqrt_pos. Qed.

Lemma vlength_sqr v : vlength v * vlength v = squared_length v.
Proof. apply sqrt_sqrt, squared_length_nonneg. Qed.

Lemma vlength_pos_squared v : 0 < vlength v -> 0 < squared_length v.
Proof.
  intros H. rewrite <- vlength_sqr. apply Rmult_lt_0_compat; exact H.
Qed.

Lemma squared_length_one_vlength v : squared_length v = 1 -> vlength v = 1.
Proof. intros H. unfold vlength. rewrite H. apply sqrt_1. Qed.

(** A vector that is not null, divided by its length, has length one. *)
Lemma squared_length_normalize v :
  0 < vlength v -> squared_length (v ⊙ (1 / vlength v)) = 1.
Proof.
  intros H. rewrite squared_length_scale, <- vlength_sqr. field. lra.
Qed.

Lemma vlength_normalize v :
  0 < vlength v -> vlength (v ⊙ (1 / vlength v)) = 1.
Proof.
  intros H. apply squared_length_one_vlength, squared_length_normalize, H.
Qed.

(** The absolute value of the scalar product of two vectors of length
    one is at most one. *)
Lemma abs_dot_unit a b :
  squared_length a = 1 -> squared_length b = 1 -> 0 <= abs (a · b) <= 1.
Proof.
  intros Ha Hb. pose proof (cauchy_schwarz a b) as H.
  rewrite Ha, Hb in H. unfold abs. split; [apply Rabs_pos|].
  apply Rabs_le. nra.
Qed.


End Vector_lemmas.

(** ** The cases of [create_shape] *)

Section Create_shape_cases.

Variable point : nat -> Point_3.
Variable normal : nat -> Vector_3.

Implicit Types (s : Plane) (indices rest : list nat).

Lemma set_frame_twice p1 p2 s :
  set_frame p1 p2 (set_frame p1 p2 s) = set_frame p1 p2 s.
Proof. reflexivity. Qed.

(** One iteration of the checking loop, in the two ways it can go. *)
Lemma check_body_deviates indices p1 p2 i idx s :
  indices !! i = Some idx ->
  deviates (m_normal_threshold s) (normal idx) (m_normal s) ->
  check_body normal indices p1 p2 i s = Some (Return (set_is_valid false s)).
Proof.
  intros Hi Hd. unfold check_body, vec_get. rewrite Hi. simpl.
  destruct (Rlt_dec _ _) as [_|Hn]; [reflexivity|].
  exfalso. apply Hn. exact Hd.
Qed.

Lemma check_body_consistent indices p1 p2 i idx s :
  indices !! i = Some idx ->
  consistent (m_normal_threshold s) (normal idx) (m_normal s) ->
  check_body normal indices p1 p2 i s = Some (Next (set_frame p1 p2 s)).
Proof.
  intros Hi Hc. unfold check_body, vec_get. rewrite Hi. simpl.
  destruct (Rlt_dec _ _) as [Hd|_]; [|reflexivity].
  exfalso. unfold consistent, vlength in Hc. lra.
Qed.

Lemma consistent_or_deviates t n nrm :
  consistent t n nrm \/ deviates t n nrm.
Proof. unfold consistent, deviates. lra. Qed.

Lemma consistent_not_deviates t n nrm :
  consistent t n nrm -> deviates t n nrm -> False.
Proof. unfold consistent, deviates. lra. Qed.

(** The prefix of [create_shape] before the loop. *)
Lemma create_shape_unfold i0 i1 i2 rest s :
  create_shape point normal (i0 :: i1 :: i2 :: rest) s =
    let p1 := point i0 in
    let p2 := point i1 in
    let p3 := point i2 in
    if Rlt_dec (vlength (sample_cross p1 p2 p3)) 0.0001
    then Some (set_normal (sample_cross p1 p2 p3) s)
    else
      r ← for_loop (check_body normal (i0 :: i1 :: i2 :: rest) p1 p2) 0 3
            (with_equation p1 p2 p3 s);
      match r with
      | Return s' => Some s'
      | Next s' => Some (set_is_valid true s')
      end.
Proof. reflexivity. Qed.

Lemma create_shape_degenerate i0 i1 i2 rest s :
  vlength (sample_cross (point i0) (point i1) (point i2)) < 0.0001 ->
  create_shape point normal (i0 :: i1 :: i2 :: rest) s
  = Some (set_normal (sample_cross (point i0) (point i1) (point i2)) s).
Proof.
  intros H. rewrite create_shape_unfold. cbv zeta.
  destruct (Rlt_dec _ _); [reflexivity | contradiction].
Qed.

Lemma create_shape_deviates_0 i0 i1 i2 rest s :
  0.0001 <= vlength (sample_cross (point i0) (point i1) (point i2)) ->
  deviates (m_normal_threshold s) (normal i0)
    (fitted_normal (point i0) (point i1) (point i2)) ->
  create_shape point normal (i0 :: i1 :: i2 :: rest) s
  = Some (set_is_valid false (with_equation (point i0) (point i1) (point i2) s)).
Proof.
  intros Hl H0. rewrite create_shape_unfold. cbv zeta.
  destruct (Rlt_dec _ _) as [Hlt|_]; [lra|].
  cbn [for_loop].
  rewrite (check_body_deviates _ _ _ _ i0) by (try reflexivity; exact H0).
  reflexivity.
Qed.

Lemma create_shape_deviates_1 i0 i1 i2 rest s :
  0.0001 <= vlength (sample_cross (point i0) (point i1) (point i2)) ->
  consistent (m_normal_threshold s) (normal i0)
    (fitted_normal (point i0) (point i1) (point i2)) ->
  deviates (m_normal_threshold s) (normal i1)
    (fitted_normal (point i0) (point i1) (point i2)) ->
  create_shape point normal (i0 :: i1 :: i2 :: rest) s
  = Some (set_is_valid false
            (set_frame (point i0) (point i1)
               (with_equation (point i0) (point i1) (point i2) s))).
Proof.
  intros Hl H0 H1. rewrite create_shape_unfold. cbv zeta.
  destruct (Rlt_dec _ _) as [Hlt|_]; [lra|].
  cbn [for_loop].
  rewrite (check_body_consistent _ _ _ _ i0) by (try reflexivity; exact H0).
  rewrite (check_body_deviates _ _ _ _ i1) by (try reflexivity; exact H1).
  reflexivity.
Qed.

Lemma create_shape_deviates_2 i0 i1 i2 rest s :
  0.0001 <= vlength (sample_cross (point i0) (point i1) (point i2)) ->
  consistent (m_normal_threshold s) (normal i0)
    (fitted_normal (point i0) (point i1) (point i2)) ->
  consistent (m_normal_threshold s) (normal i1)
    (fitted_normal (point i0) (point i1) (point i2)) ->
  deviates (m_normal_threshold s) (normal i2)
    (fitted_normal (point i0) (point i1) (point i2)) ->
  create_shape point normal (i0 :: i1 :: i2 :: rest) s
  = Some (set_is_valid false
            (set_frame (point i0) (point i1)
               (with_equation (point i0) (point i1) (point i2) s))).
Proof.
  intros Hl H0 H1 H2. rewrite create_shape_unfold. cbv zeta.
  destruct (Rlt_dec _ _) as [Hlt|_]; [lra|].
  cbn [for_loop].
  rewrite (check_body_consistent _ _ _ _ i0) by (try reflexivity; exact H0).
  rewrite (check_body_consistent _ _ _ _ i1) by (try reflexivity; exact H1).
  rewrite (check_body_deviates _ _ _ _ i2) by (try reflexivity; exact H2).
  reflexivity.
Qed.

Lemma create_shape_consistent i0 i1 i2 rest s :
  0.0001 <= vlength (sample_cross (point i0) (point i1) (point i2)) ->
  consistent (m_normal_threshold s) (normal i0)
    (fitted_normal (point i0) (point i1) (point i2)) ->
  consistent (m_normal_threshold s) (normal i1)
    (fitted_normal (point i0) (point i1) (point i2)) ->
  consistent (m_normal_threshold s) (normal i2)
    (fitted_normal (point i0) (point i1) (point i2)) ->
  create_shape point normal (i0 :: i1 :: i2 :: rest) s
  = Some (set_is_valid true
            (set_frame (point i0) (point i1)
               (with_equation (point i0) (point i1) (point i2) s))).
Proof.
  intros Hl H0 H1 H2. rewrite create_shape_unfold. cbv zeta.
  destruct (Rlt_dec _ _) as [Hlt|_]; [lra|].
  cbn [for_loop].
  rewrite (check_body_consistent _ _ _ _ i0) by (try reflexivity; exact H0).
  rewrite (check_body_consistent _ _ _ _ i1) by (try reflexivity; exact H1).
  rewrite (check_body_consistent _ _ _ _ i2) by (try reflexivity; exact H2).
  reflexivity.
Qed.

End Create_shape_cases.

(** ** The frame of a fitted plane *)

Section Frame.

Implicit Types (v w a n : Vector_3).

Lemma squared_length_pos_vlength v : 0 < squared_length v -> 0 < vlength v.
Proof. apply sqrt_lt_R0. Qed.

Lemma squared_length_normalized v :
  0 < squared_length v -> squared_length (normalized v) = 1.
Proof.
  intros H. apply squared_length_normalize, squared_length_pos_vlength, H.
Qed.

Lemma normalized_unit v : squared_length v = 1 -> normalized v = v.
Proof.
  intros H. unfold normalized. rewrite (squared_length_one_vlength _ H).
  apply vector_eq; simpl; field.
Qed.

Lemma dot_normalized_l v w : v · w = 0 -> normalized v · w = 0.
Proof. intros H. unfold normalized. rewrite dot_scale_l, H. ring. Qed.

Lemma dot_normalized_r v w : v · w = 0 -> v · normalized w = 0.
Proof. intros H. unfold normalized. rewrite dot_scale_r, H. ring. Qed.

(** The two base vectors that [create_shape] builds from the edge [a] of
    the sample and the unit normal [n] of the plane. *)
Lemma frame_orthonormal a n :
  squared_length n = 1 -> a · n = 0 -> 0 < squared_length a ->
  let b1 := normalized (cross_product a n) in
  let b2 := normalized (cross_product b1 n) in
  squared_length b1 = 1 /\ squared_length b2 = 1 /\
  b1 · b2 = 0 /\ b1 · n = 0 /\ b2 · n = 0 /\ b2 = cross_product b1 n.
Proof.
  intros Hn Han Ha b1 b2.
  assert (H1 : squared_length b1 = 1).
  { apply squared_length_normalized.
    rewrite squared_length_cross, Hn, Han. lra. }
  assert (H1n : b1 · n = 0).
  { apply dot_normalized_l. rewrite dot_comm. apply cross_dot_r. }
  assert (Hc : squared_length (cross_product b1 n) = 1).
  { rewrite squared_length_cross, H1, Hn, H1n. ring. }
  assert (H2 : b2 = cross_product b1 n) by (apply normalized_unit, Hc).
  repeat split; try assumption.
  - rewrite H2. exact Hc.
  - rewrite H2. apply cross_dot_l.
  - rewrite H2, dot_comm. apply cross_dot_r.
Qed.


(** The sample that is not degenerate has two distinct first points, and
    its normal is at a right angle to the edge between them. *)
Lemma sample_edge (p1 p2 p3 : Point_3) :
  0 < vlength (sample_cross p1 p2 p3) ->
  0 < squared_length (p1 ⊖ p2) /\
  squared_length (fitted_normal p1 p2 p3) = 1 /\
  (p1 ⊖ p2) · fitted_normal p1 p2 p3 = 0 /\
  (p1 ⊖ p3) · fitted_normal p1 p2 p3 = 0.
Proof.
  intros H. pose proof (vlength_pos_squared _ H) as Hs.
  unfold sample_cross in Hs. rewrite squared_length_cross in Hs.
  pose proof (squared_length_nonneg (p1 ⊖ p2)) as Ha.
  pose proof (squared_length_nonneg (p1 ⊖ p3)) as Hb.
  repeat split.
  - destruct Ha as [Ha|Ha]; [exact Ha|]. rewrite <- Ha in Hs. nra.
  - apply squared_length_normalize, H.
  - apply dot_normalized_r, cross_dot_l.
  - apply dot_normalized_r, cross_dot_r.
Qed.

End Frame.

(** ** The examples, evaluated *)

Lemma vlength_e3 : vlength (mkVector 0 0 1) = 1.
Proof.
  apply squared_length_one_vlength. unfold squared_length, dot; simpl; ring.
Qed.

Lemma vlength_e1 : vlength (mkVector 1 0 0) = 1.
Proof.
  apply squared_length_one_vlength. unfold squared_length, dot; simpl; ring.
Qed.

Lemma vlength_null : vlength (mkVector 0 0 0) = 0.
Proof.
  unfold vlength, squared_length, dot; simpl.
  replace (0 * 0 + 0 * 0 + 0 * 0) with 0 by ring. apply sqrt_0.
Qed.

Lemma sample_cross_example :
  sample_cross (sample_point 0) (sample_point 1) (sample_point 2)
  = mkVector 0 0 1.
Proof. apply vector_eq; simpl; ring. Qed.

Lemma fitted_normal_example :
  fitted_normal (sample_point 0) (sample_point 1) (sample_point 2)
  = mkVector 0 0 1.
Proof.
  unfold fitted_normal. rewrite sample_cross_example.
  apply normalized_unit. unfold squared_length, dot; simpl; ring.
Qed.

Lemma sample_cross_collinear :
  sample_cross (collinear_point 0) (collinear_point 1) (collinear_point 2)
  = mkVector 0 0 0.
Proof. apply vector_eq; simpl; ring. Qed.

Lemma consistent_upward (t : FT) :
  t <= 1 -> consistent t (mkVector 0 0 1) (mkVector 0 0 1).
Proof.
  intros H. unfold consistent. rewrite vlength_e3. unfold abs, dot; simpl.
  replace (0 * 0 + 0 * 0 + 1 * 1) with 1 by ring. rewrite Rabs_R1. lra.
Qed.

Lemma deviates_sideways (t : FT) :
  0 < t -> deviates t (mkVector 1 0 0) (mkVector 0 0 1).
Proof.
  intros H. unfold deviates. rewrite vlength_e1. unfold abs, dot; simpl.
  replace (1 * 0 + 0 * 0 + 0 * 1) with 0 by ring. rewrite Rabs_R0. lra.
Qed.

(** ** Fitting: [create_shape] *)




Section Fitting.

Variable point : nat -> Point_3.
Variable normal : nat -> Vector_3.

(** [create_shape] reads [indices[0]], [indices[1]] and [indices[2]]. *)
Lemma create_shape_is_Some (indices : list nat) (s : Plane) :
  is_Some (create_shape point normal indices s) <-> (3 <= length indices)%nat.
Proof.
  split.
  - intros [s' H]. destruct indices as [|i0 [|i1 [|i2 rest]]];
      try discriminate H. simpl. lia.
  - intros H. destruct indices as [|i0 [|i1 [|i2 rest]]];
      simpl in H; try lia.
    destruct (Rlt_or_le
      (vlength (sample_cross (point i0) (point i1) (point i2))) 0.0001) as [Hd|Hd].
    { rewrite create_shape_degenerate by exact Hd. eexists; reflexivity. }
    set (t := m_normal_threshold s).
    set (nrm := fitted_normal (point i0) (point i1) (point i2)).
    destruct (consistent_or_deviates t (normal i0) nrm) as [H0|H0];
      [|erewrite create_shape_deviates_0 by eassumption; eexists; reflexivity].
    destruct (consistent_or_deviates t (normal i1) nrm) as [H1|H1];
      [|erewrite create_shape_deviates_1 by eassumption; eexists; reflexivity].
    destruct (consistent_or_deviates t (normal i2) nrm) as [H2|H2];
      [|erewrite create_shape_deviates_2 by eassumption; eexists; reflexivity].
    erewrite create_shape_consistent by eassumption. eexists; reflexivity.
Qed.

(** What a fitted plane is: the sample was not degenerate, its three
    normals passed the test, and the fields are the ones of the last
    statements of [create_shape]. *)
Lemma create_shape_valid_inv (indices : list nat) (s0 s : Plane) :
  m_is_valid s0 = false ->
  create_shape point normal indices s0 = Some s ->
  m_is_valid s = true ->
  exists (i0 i1 i2 : nat) (rest : list nat),
    indices = i0 :: i1 :: i2 :: rest /\
    0.0001 <= vlength (sample_cross (point i0) (point i1) (point i2)) /\
    consistent (m_normal_threshold s0) (normal i0)
      (fitted_normal (point i0) (point i1) (point i2)) /\
    consistent (m_normal_threshold s0) (normal i1)
      (fitted_normal (point i0) (point i1) (point i2)) /\
    consistent (m_normal_threshold s0) (normal i2)
      (fitted_normal (point i0) (point i1) (point i2)) /\
    s = set_is_valid true
          (set_frame (point i0) (point i1)
             (with_equation (point i0) (point i1) (point i2) s0)).
Proof.
  intros Hv0 Hc Hv.
  destruct indices as [|i0 [|i1 [|i2 rest]]]; try discriminate Hc.
  exists i0, i1, i2, rest. split; [reflexivity|].
  destruct (Rlt_or_le
    (vlength (sample_cross (point i0) (point i1) (point i2))) 0.0001) as [Hd|Hd].
  { rewrite create_shape_degenerate in Hc by exact Hd.
    injection Hc as E; subst s. simpl in Hv. congruence. }
  split; [exact Hd|].
  set (t := m_normal_threshold s0) in *.
  set (nrm := fitted_normal (point i0) (point i1) (point i2)) in *.
  destruct (consistent_or_deviates t (normal i0) nrm) as [H0|H0].
  2:{ erewrite create_shape_deviates_0 in Hc by eassumption.
      injection Hc as E; subst s. discriminate Hv. }
  destruct (consistent_or_deviates t (normal i1) nrm) as [H1|H1].
  2:{ erewrite create_shape_deviates_1 in Hc by eassumption.
      injection Hc as E; subst s. discriminate Hv. }
  destruct (consistent_or_deviates t (normal i2) nrm) as [H2|H2].
  2:{ erewrite create_shape_deviates_2 in Hc by eassumption.
      injection Hc as E; subst s. discriminate Hv. }
  erewrite create_shape_consistent in Hc by eassumption.
  injection Hc as E; subst s. repeat split; assumption.
Qed.

Lemma valid_plane_inv (s : Plane) :
  valid_plane point normal s ->
  exists (p1 p2 p3 : Point_3) (s0 : Plane),
    0.0001 <= vlength (sample_cross p1 p2 p3) /\
    s = set_is_valid true (set_frame p1 p2 (with_equation p1 p2 p3 s0)).
Proof.
  intros (indices & s0 & Hv0 & Hc & Hv).
  destruct (create_shape_valid_inv indices s0 s Hv0 Hc Hv)
    as (i0 & i1 & i2 & rest & _ & Hl & _ & _ & _ & E).
  exists (point i0), (point i1), (point i2), s0. split; assumption.
Qed.

(** The invariant of a fitted plane. *)
Lemma valid_plane_frame (s : Plane) :
  valid_plane point normal s ->
  squared_length (m_normal s) = 1 /\
  squared_length (m_base1 s) = 1 /\
  squared_length (m_base2 s) = 1 /\
  m_base1 s · m_base2 s = 0 /\
  m_base1 s · m_normal s = 0 /\
  m_base2 s · m_normal s = 0 /\
  m_base2 s = cross_product (m_base1 s) (m_normal s) /\
  m_d s = - (m_normal s · (m_point_on_primitive s ⊖ ORIGIN)).
Proof.
  intros Hv. destruct (valid_plane_inv s Hv) as (p1 & p2 & p3 & s0 & Hl & ->).
  assert (Hpos : 0 < vlength (sample_cross p1 p2 p3)) by lra.
  destruct (sample_edge p1 p2 p3 Hpos) as (Ha & Hn & Han & _).
  destruct (frame_orthonormal (p1 ⊖ p2) (fitted_normal p1 p2 p3) Hn Han Ha)
    as (H1 & H2 & H12 & H1n & H2n & Hb2).
  repeat split; try assumption.
  unfold dot, psub, ORIGIN; simpl. ring.
Qed.



(** C3: when the sample is not degenerate and the supplied normal of the
    sample point [k] fails the test, the plane is not valid, and the
    result is the same for any other supplied normals that agree on the
    sample points up to [k]: the later ones are not looked at. *)
Theorem create_shape_rejects_deviating_normal
    (normal' : nat -> Vector_3)
    (i0 i1 i2 : nat) (rest : list nat) (s : Plane) (k idx : nat) :
  0.0001 <= vlength (sample_cross (point i0) (point i1) (point i2)) ->
  [i0; i1; i2] !! k = Some idx ->
  deviates (m_normal_threshold s) (normal idx)
    (fitted_normal (point i0) (point i1) (point i2)) ->
  (forall (j idx' : nat),
     (j <= k)%nat -> [i0; i1; i2] !! j = Some idx' ->
     normal' idx' = normal idx') ->
  exists s' : Plane,
    create_shape point normal (i0 :: i1 :: i2 :: rest) s = Some s' /\
    m_is_valid s' = false /\
    create_shape point normal' (i0 :: i1 :: i2 :: rest) s = Some s'.
Proof.
  intros Hl Hk Hd Hsame.
  set (t := m_normal_threshold s) in *.
  set (nrm := fitted_normal (point i0) (point i1) (point i2)) in *.
  assert (E0 : normal' i0 = normal i0)
    by (apply (Hsame 0%nat); [lia | reflexivity]).
  destruct (consistent_or_deviates t (normal i0) nrm) as [H0|H0].
  2:{ eexists. split; [apply create_shape_deviates_0; eassumption|].
      split; [reflexivity|].
      apply create_shape_deviates_0; [exact Hl | rewrite E0; exact H0]. }
  destruct k as [|k];
    [injection Hk as E; subst idx; destruct (consistent_not_deviates _ _ _ H0 Hd)|].
  assert (E1 : normal' i1 = normal i1)
    by (apply (Hsame 1%nat); [lia | reflexivity]).
  destruct (consistent_or_deviates t (normal i1) nrm) as [H1|H1].
  2:{ eexists. split; [apply create_shape_deviates_1; eassumption|].
      split; [reflexivity|].
      apply create_shape_deviates_1;
        [exact Hl | rewrite E0; exact H0 | rewrite E1; exact H1]. }
  destruct k as [|k];
    [injection Hk as E; subst idx; destruct (consistent_not_deviates _ _ _ H1 Hd)|].
  destruct k as [|k]; [|discriminate Hk].
  injection Hk as E; subst idx.
  assert (E2 : normal' i2 = normal i2)
    by (apply (Hsame 2%nat); [lia | reflexivity]).
  eexists. split; [apply create_shape_deviates_2; eassumption|].
  split; [reflexivity|].
  apply create_shape_deviates_2;
    [exact Hl | rewrite E0; exact H0 | rewrite E1; exact H1
    | rewrite E2; exact Hd].
Qed.


End Fitting.


Lemma sample_not_degenerate :
  0.0001
  <= vlength (sample_cross (sample_point 0) (sample_point 1) (sample_point 2)).
Proof. rewrite sample_cross_example, vlength_e3. lra. Qed.

Lemma create_shape_example :
  create_shape sample_point upward_normal [0; 1; 2]%nat (new_plane 0.9)
  = Some fitted_example.
Proof.
  apply create_shape_consistent; [exact sample_not_degenerate|..];
    rewrite fitted_normal_example; apply consistent_upward; simpl; lra.
Qed.

Lemma valid_plane_example : valid_plane sample_point upward_normal fitted_example.
Proof.
  exists [0; 1; 2]%nat, (new_plane 0.9).
  split; [reflexivity|]. split; [exact create_shape_example | reflexivity].
Qed.

(** The fields of the fitted example: the plane z = 0 with the frame
    (0,1,0), (1,0,0). *)
Lemma fitted_example_fields :
  m_normal fitted_example = mkVector 0 0 1 /\
  m_d fitted_example = 0 /\
  m_point_on_primitive fitted_example = mkPoint 0 0 0 /\
  m_base1 fitted_example = mkVector 0 1 0 /\
  m_base2 fitted_example = mkVector 1 0 0.
Proof.
  assert (Hn : m_normal fitted_example = mkVector 0 0 1)
    by exact fitted_normal_example.
  assert (H1 : m_base1 fitted_example = mkVector 0 1 0).
  { change (m_base1 fitted_example)
      with (normalized (cross_product (sample_point 0 ⊖ sample_point 1)
                                      (m_normal fitted_example))).
    rewrite Hn.
    replace (cross_product (sample_point 0 ⊖ sample_point 1) (mkVector 0 0 1))
      with (mkVector 0 1 0) by (apply vector_eq; simpl; ring).
    apply normalized_unit. unfold squared_length, dot; simpl; ring. }
  assert (H2 : m_base2 fitted_example = mkVector 1 0 0).
  { change (m_base2 fitted_example)
      with (normalized (cross_product (m_base1 fitted_example)
                                      (m_normal fitted_example))).
    rewrite Hn, H1.
    replace (cross_product (mkVector 0 1 0) (mkVector 0 0 1))
      with (mkVector 1 0 0) by (apply vector_eq; simpl; ring).
    apply normalized_unit. unfold squared_length, dot; simpl; ring. }
  repeat split; try assumption.
  change (m_d fitted_example)
    with (- (0 * vx (m_normal fitted_example) + 0 * vy (m_normal fitted_example)
             + 0 * vz (m_normal fitted_example))).
  ring.
Qed.

(** C3 on the sample of the specification with the normal (1,0,0) at the
    first, the second or the third point and the threshold 0.9; the
    other run has the normal (1,0,0) at the later points too. *)
Lemma create_shape_rejects_deviating_normal_witness :
  (exists s' : Plane,
     create_shape sample_point (sideways_at 0) [0; 1; 2]%nat (new_plane 0.9)
     = Some s' /\
     m_is_valid s' = false /\
     create_shape sample_point (sideways_from 0) [0; 1; 2]%nat (new_plane 0.9)
     = Some s') /\
  (exists s' : Plane,
     create_shape sample_point (sideways_at 1) [0; 1; 2]%nat (new_plane 0.9)
     = Some s' /\
     m_is_valid s' = false /\
     create_shape sample_point (sideways_from 1) [0; 1; 2]%nat (new_plane 0.9)
     = Some s') /\
  (exists s' : Plane,
     create_shape sample_point (sideways_at 2) [0; 1; 2]%nat (new_plane 0.9)
     = Some s' /\
     m_is_valid s' = false /\
     create_shape sample_point (sideways_from 2) [0; 1; 2]%nat (new_plane 0.9)
     = Some s').
Proof.
  split; [|split].
  - apply (create_shape_rejects_deviating_normal sample_point (sideways_at 0)
             (sideways_from 0) 0 1 2 [] (new_plane 0.9) 0 0).
    + exact sample_not_degenerate.
    + reflexivity.
    + rewrite fitted_normal_example. apply deviates_sideways. simpl. lra.
    + intros [|j] idx' Hj E; try lia; injection E as E; subst idx'; reflexivity.
  - apply (create_shape_rejects_deviating_normal sample_point (sideways_at 1)
             (sideways_from 1) 0 1 2 [] (new_plane 0.9) 1 1).
    + exact sample_not_degenerate.
    + reflexivity.
    + rewrite fitted_normal_example. apply deviates_sideways. simpl. lra.
    + intros [|[|j]] idx' Hj E; try lia; injection E as E; subst idx';
        reflexivity.
  - apply (create_shape_rejects_deviating_normal sample_point (sideways_at 2)
             (sideways_from 2) 0 1 2 [] (new_plane 0.9) 2 2).
    + exact sample_not_degenerate.
    + reflexivity.
    + rewrite fitted_normal_example. apply deviates_sideways. simpl. lra.
    + intros [|[|[|j]]] idx' Hj E; try lia; injection E as E; subst idx';
        reflexivity.
Defined.


(** ** The variant that sets the frame once, after the loop *)

Section Hoisted.

Variable point : nat -> Point_3.
Variable normal : nat -> Vector_3.

Implicit Types (s : Plane) (indices rest : list nat).

Lemma check_only_body_deviates indices i idx s :
  indices !! i = Some idx ->
  deviates (m_normal_threshold s) (normal idx) (m_normal s) ->
  check_only_body normal indices i s = Some (Return (set_is_valid false s)).
Proof.
  intros Hi Hd. unfold check_only_body, vec_get. rewrite Hi. simpl.
  destruct (Rlt_dec _ _) as [_|Hn]; [reflexivity|].
  exfalso. apply Hn. exact Hd.
Qed.

Lemma check_only_body_consistent indices i idx s :
  indices !! i = Some idx ->
  consistent (m_normal_threshold s) (normal idx) (m_normal s) ->
  check_only_body normal indices i s = Some (Next s).
Proof.
  intros Hi Hc. unfold check_only_body, vec_get. rewrite Hi. simpl.
  destruct (Rlt_dec _ _) as [Hd|_]; [|reflexivity].
  exfalso. unfold consistent, vlength in Hc. lra.
Qed.

Lemma create_shape_hoisted_unfold i0 i1 i2 rest s :
  create_shape_hoisted point normal (i0 :: i1 :: i2 :: rest) s =
    let p1 := point i0 in
    let p2 := point i1 in
    let p3 := point i2 in
    if Rlt_dec (vlength (sample_cross p1 p2 p3)) 0.0001
    then Some (set_normal (sample_cross p1 p2 p3) s)
    else
      r ← for_loop (check_only_body normal (i0 :: i1 :: i2 :: rest)) 0 3
            (with_equation p1 p2 p3 s);
      match r with
      | Return s' => Some s'
      | Next s' => Some (set_is_valid true (set_frame p1 p2 s'))
      end.
Proof. reflexivity. Qed.

Lemma create_shape_hoisted_short indices s :
  (length indices < 3)%nat -> create_shape_hoisted point normal indices s = None.
Proof.
  intros H. destruct indices as [|i0 [|i1 [|i2 rest]]];
    try reflexivity. simpl in H. lia.
Qed.

(** The result of the variant, by the first supplied normal that fails the
    test: [Some k] for the sample point [k], [None] when the three pass. *)
Lemma create_shape_hoisted_cases i0 i1 i2 rest s :
  let p1 := point i0 in
  let p2 := point i1 in
  let p3 := point i2 in
  let t := m_normal_threshold s in
  let nrm := fitted_normal p1 p2 p3 in
  let s1 := with_equation p1 p2 p3 s in
  let r := create_shape_hoisted point normal (i0 :: i1 :: i2 :: rest) s in
  (vlength (sample_cross p1 p2 p3) < 0.0001 ->
   r = Some (set_normal (sample_cross p1 p2 p3) s)) /\
  (0.0001 <= vlength (sample_cross p1 p2 p3) ->
   (deviates t (normal i0) nrm -> r = Some (set_is_valid false s1)) /\
   (consistent t (normal i0) nrm ->
    (deviates t (normal i1) nrm -> r = Some (set_is_valid false s1)) /\
    (consistent t (normal i1) nrm ->
     (deviates t (normal i2) nrm -> r = Some (set_is_valid false s1)) /\
     (consistent t (normal i2) nrm ->
      r = Some (set_is_valid true (set_frame p1 p2 s1)))))).
Proof.
  intros p1 p2 p3 t nrm s1 r. subst r.
  rewrite create_shape_hoisted_unfold. cbv zeta. fold p1 p2 p3.
  destruct (Rlt_dec _ _) as [Hlt|Hge].
  { split; [reflexivity | intros; lra]. }
  split; [intros; lra | intros _].
  cbn [for_loop]. fold s1. split.
  { intros H0.
    rewrite (check_only_body_deviates _ _ i0) by (try reflexivity; exact H0).
    reflexivity. }
  intros H0.
  rewrite (check_only_body_consistent _ _ i0) by (try reflexivity; exact H0).
  split.
  { intros H1.
    rewrite (check_only_body_deviates _ _ i1) by (try reflexivity; exact H1).
    reflexivity. }
  intros H1.
  rewrite (check_only_body_consistent _ _ i1) by (try reflexivity; exact H1).
  split.
  { intros H2.
    rewrite (check_only_body_deviates _ _ i2) by (try reflexivity; exact H2).
    reflexivity. }
  intros H2.
  rewrite (check_only_body_consistent _ _ i2) by (try reflexivity; exact H2).
  reflexivity.
Qed.

(** The cases of a statement on the two tests of [create_shape]: the
    ones that the tests at hand exclude go by contradiction, the others
    by computation. *)
Ltac excluded :=
  match goal with
  | Hc : consistent ?t ?n ?nrm, Hd : deviates ?t ?n ?nrm |- _ =>
      destruct (consistent_not_deviates t n nrm Hc Hd)
  end.

Ltac split_cases :=
  repeat match goal with
         | |- _ /\ _ => split
         | |- _ -> _ => intro
         | H : _ \/ _ |- _ => destruct H
         end;
  first [ reflexivity | lra | excluded ].

(** C9, as the code has it: the two versions are defined on the same
    inputs and give the same [m_is_valid], normal and [m_d], and neither
    changes the threshold.  On a degenerate sample, when the first
    supplied normal fails the test and when the three normals pass, they
    give the same plane.  When the first normal passes and the second or
    the third fails, both planes are not valid and the variant has left
    the anchor and the base vectors as they were on entry, while
    [create_shape] has already stored them: its plane is the one of the
    variant with the frame set. *)
Theorem create_shape_hoisted_agrees (indices : list nat) (s : Plane) :
  ((length indices < 3)%nat ->
   create_shape point normal indices s = None /\
   create_shape_hoisted point normal indices s = None) /\
  forall (i0 i1 i2 : nat) (rest : list nat),
    indices = i0 :: i1 :: i2 :: rest ->
    exists a b : Plane,
      create_shape point normal indices s = Some a /\
      create_shape_hoisted point normal indices s = Some b /\
      m_is_valid a = m_is_valid b /\
      m_normal a = m_normal b /\
      m_d a = m_d b /\
      m_normal_threshold a = m_normal_threshold s /\
      m_normal_threshold b = m_normal_threshold s /\
      (vlength (sample_cross (point i0) (point i1) (point i2)) < 0.0001 ->
       a = b /\
       b = set_normal (sample_cross (point i0) (point i1) (point i2)) s) /\
      (0.0001 <= vlength (sample_cross (point i0) (point i1) (point i2)) ->
       (deviates (m_normal_threshold s) (normal i0)
          (fitted_normal (point i0) (point i1) (point i2)) ->
        a = b /\
        b = set_is_valid false
              (with_equation (point i0) (point i1) (point i2) s)) /\
       (consistent (m_normal_threshold s) (normal i0)
          (fitted_normal (point i0) (point i1) (point i2)) ->
        (deviates (m_normal_threshold s) (normal i1)
           (fitted_normal (point i0) (point i1) (point i2)) \/
         deviates (m_normal_threshold s) (normal i2)
           (fitted_normal (point i0) (point i1) (point i2)) ->
         m_is_valid a = false /\
         b = set_is_valid false
               (with_equation (point i0) (point i1) (point i2) s) /\
         m_point_on_primitive b = m_point_on_primitive s /\
         m_base1 b = m_base1 s /\
         m_base2 b = m_base2 s /\
         a = set_frame (point i0) (point i1) b /\
         m_point_on_primitive a = point i0 /\
         m_base1 a
         = normalized (cross_product (point i0 ⊖ point i1) (m_normal a)) /\
         m_base2 a = normalized (cross_product (m_base1 a) (m_normal a))) /\
        (consistent (m_normal_threshold s) (normal i1)
           (fitted_normal (point i0) (point i1) (point i2)) ->
         consistent (m_normal_threshold s) (normal i2)
           (fitted_normal (point i0) (point i1) (point i2)) ->
         a = b /\
         b = set_is_valid true
               (set_frame (point i0) (point i1)
                  (with_equation (point i0) (point i1) (point i2) s))))).
Proof.
  split.
  { intros Hlen. destruct indices as [|i0 [|i1 [|i2 rest]]];
      try (split; reflexivity). simpl in Hlen. lia. }
  intros i0 i1 i2 rest ->.
  pose proof (create_shape_hoisted_cases i0 i1 i2 rest s) as Hh.
  cbv zeta in Hh. destruct Hh as [Hdeg Hnd].
  set (t := m_normal_threshold s) in *.
  set (nrm := fitted_normal (point i0) (point i1) (point i2)) in *.
  set (c := sample_cross (point i0) (point i1) (point i2)) in *.
  set (s1 := with_equation (point i0) (point i1) (point i2) s) in *.
  destruct (Rlt_or_le (vlength c) 0.0001) as [Hd|Hd].
  { exists (set_normal c s), (set_normal c s).
    split; [apply create_shape_degenerate, Hd|]. split; [apply Hdeg, Hd|].
    split_cases. }
  clear Hdeg. destruct (Hnd Hd) as [Hd0 Hc0]. clear Hnd.
  destruct (consistent_or_deviates t (normal i0) nrm) as [H0|H0].
  2:{ exists (set_is_valid false s1), (set_is_valid false s1).
      split; [apply create_shape_deviates_0; assumption|].
      split; [apply Hd0, H0|]. split_cases. }
  destruct (Hc0 H0) as [Hd1 Hc1].
  destruct (consistent_or_deviates t (normal i1) nrm) as [H1|H1].
  2:{ exists (set_is_valid false (set_frame (point i0) (point i1) s1)),
             (set_is_valid false s1).
      split; [apply create_shape_deviates_1; assumption|].
      split; [apply Hd1, H1|]. split_cases. }
  destruct (Hc1 H1) as [Hd2 Hc2].
  destruct (consistent_or_deviates t (normal i2) nrm) as [H2|H2].
  2:{ exists (set_is_valid false (set_frame (point i0) (point i1) s1)),
             (set_is_valid false s1).
      split; [apply create_shape_deviates_2; assumption|].
      split; [apply Hd2, H2|]. split_cases. }
  exists (set_is_valid true (set_frame (point i0) (point i1) s1)),
         (set_is_valid true (set_frame (point i0) (point i1) s1)).
  split; [apply create_shape_consistent; assumption|].
  split; [apply Hc2, H2|]. split_cases.
Qed.

End Hoisted.

(** C9, as the specification has it, fails: for the sample of the
    specification with the supplied normal (1,0,0) at the second point,
    [create_shape] leaves the first base vector (0,1,0) and the variant
    leaves the null vector that was there on entry. *)
Lemma create_shape_hoisted_differs :
  m_base1 <$> create_shape sample_point (sideways_at 1) [0; 1; 2]%nat
                (new_plane 0.9)
  = Some (mkVector 0 1 0) /\
  m_base1 <$> create_shape_hoisted sample_point (sideways_at 1) [0; 1; 2]%nat
                (new_plane 0.9)
  = Some (mkVector 0 0 0) /\
  create_shape sample_point (sideways_at 1) [0; 1; 2]%nat (new_plane 0.9)
  <> create_shape_hoisted sample_point (sideways_at 1) [0; 1; 2]%nat
       (new_plane 0.9).
Proof.
  assert (H0 : consistent 0.9 (sideways_at 1 0)
                 (fitted_normal (sample_point 0) (sample_point 1) (sample_point 2)))
    by (rewrite fitted_normal_example; apply consistent_upward; lra).
  assert (H1 : deviates 0.9 (sideways_at 1 1)
                 (fitted_normal (sample_point 0) (sample_point 1) (sample_point 2)))
    by (rewrite fitted_normal_example; apply deviates_sideways; lra).
  pose proof (create_shape_deviates_1 sample_point (sideways_at 1) 0 1 2 []
                (new_plane 0.9) sample_not_degenerate H0 H1) as Ea.
  pose proof (create_shape_hoisted_cases sample_point (sideways_at 1) 0 1 2 []
                (new_plane 0.9)) as Hh.
  cbv zeta in Hh. destruct Hh as [_ Hh].
  destruct (Hh sample_not_degenerate) as [_ Hh0].
  destruct (Hh0 H0) as [Eb _]. specialize (Eb H1).
  assert (Fa : m_base1 <$> create_shape sample_point (sideways_at 1)
                 [0; 1; 2]%nat (new_plane 0.9) = Some (mkVector 0 1 0)).
  { rewrite Ea. simpl. f_equal. apply fitted_example_fields. }
  assert (Fb : m_base1 <$> create_shape_hoisted sample_point (sideways_at 1)
                 [0; 1; 2]%nat (new_plane 0.9) = Some (mkVector 0 0 0)).
  { rewrite Eb. reflexivity. }
  split; [exact Fa|]. split; [exact Fb|].
  intros E. rewrite E, Fb in Fa. injection Fa as Hy. lra.
Qed.

(** ** Loops *)

Section For_loop.

Context {St : Type}.
Implicit Types (body : nat -> St -> option (flow St)) (s : St).

(** A loop whose body goes on and keeps the invariant [Inv] runs to its
    end. *)
Lemma for_loop_invariant body (Inv : nat -> St -> Prop) (lo n : nat) s :
  (forall (i : nat) (st : St),
     (lo <= i < lo + n)%nat -> Inv i st ->
     exists st', body i st = Some (Next st') /\ Inv (S i) st') ->
  Inv lo s ->
  exists s', for_loop body lo n s = Some (Next s') /\ Inv (lo + n)%nat s'.
Proof.
  revert lo s. induction n as [|n IH]; intros lo s Hstep H0.
  - exists s. rewrite Nat.add_0_r. split; [reflexivity | exact H0].
  - destruct (Hstep lo s ltac:(lia) H0) as (st' & Hb & H1).
    destruct (IH (S lo) st') as (s' & Hl & Hs').
    + intros i st Hi. apply Hstep. lia.
    + exact H1.
    + exists s'. simpl. rewrite Hb.
      replace (lo + S n)%nat with (S lo + n)%nat by lia. split; assumption.
Qed.

(** A loop whose body fails at the iteration [k], after iterations that
    keep the invariant, fails. *)
Lemma for_loop_fails body (Inv : nat -> St -> Prop) (lo n k : nat) s :
  (lo <= k < lo + n)%nat ->
  (forall (i : nat) (st : St),
     (lo <= i < k)%nat -> Inv i st ->
     exists st', body i st = Some (Next st') /\ Inv (S i) st') ->
  (forall st : St, Inv k st -> body k st = None) ->
  Inv lo s ->
  for_loop body lo n s = None.
Proof.
  revert lo s. induction n as [|n IH]; intros lo s Hk Hstep Hfail H0; [lia|].
  simpl. destruct (decide (lo = k)) as [->|Hne].
  - rewrite (Hfail s H0). reflexivity.
  - destruct (Hstep lo s ltac:(lia) H0) as (st' & Hb & H1). rewrite Hb.
    apply IH; [lia | | exact Hfail | exact H1].
    intros i st Hi. apply Hstep. lia.
Qed.

End For_loop.

Lemma vec_set_Some {A : Type} (v : list A) (i : nat) (x : A) :
  (i < length v)%nat -> vec_set v i x = Some (<[i := x]> v).
Proof. intros H. unfold vec_set. destruct (decide _); [reflexivity | lia]. Qed.

Lemma vec_set_None {A : Type} (v : list A) (i : nat) (x : A) :
  (length v <= i)%nat -> vec_set v i x = None.
Proof. intros H. unfold vec_set. destruct (decide _); [lia | reflexivity]. Qed.

(** The loops that write one value for each index of the batch. *)
Section Write_loop.

Context {A : Type}.
Variable f : nat -> A.
Variable indices : list nat.
Variable body : nat -> list A -> option (flow (list A)).

Lemma written_up_to_insert (out0 out : list A) (i idx : nat) :
  indices !! i = Some idx -> (i < length out0)%nat ->
  written_up_to f indices out0 out i ->
  written_up_to f indices out0 (<[i := f idx]> out) (S i).
Proof using Type.
  intros Hi Hlt (Hlen & Hdone & Hrest).
  split; [rewrite length_insert; exact Hlen|]. split.
  - intros j idx' Hj Hidx. destruct (decide (j = i)) as [->|Hne].
    + rewrite list_lookup_insert_eq by lia. congruence.
    + rewrite list_lookup_insert_ne by congruence. apply Hdone; [lia|exact Hidx].
  - intros j Hj. rewrite list_lookup_insert_ne by lia. apply Hrest. lia.
Qed.

Lemma written_up_to_start (out0 : list A) : written_up_to f indices out0 out0 0.
Proof using Type. split; [reflexivity|]. split; [intros; lia | reflexivity]. Qed.

Lemma write_step (out0 out : list A) (i idx : nat) :
  writes_each f indices body ->
  indices !! i = Some idx -> (i < length out0)%nat ->
  written_up_to f indices out0 out i ->
  body i out = Some (Next (<[i := f idx]> out)) /\
  written_up_to f indices out0 (<[i := f idx]> out) (S i).
Proof using Type.
  intros Hb Hi Hlt Hw. split.
  - rewrite Hb. unfold vec_get. rewrite Hi. simpl.
    destruct Hw as (Hlen & _). rewrite vec_set_Some by lia. reflexivity.
  - apply written_up_to_insert; assumption.
Qed.

Lemma write_loop_runs (out0 : list A) :
  writes_each f indices body ->
  (length indices <= length out0)%nat ->
  exists out : list A,
    for_loop body 0 (length indices) out0 = Some (Next out) /\
    written_up_to f indices out0 out (length indices).
Proof using Type.
  intros Hb Hlen.
  apply (for_loop_invariant body
           (fun i out => written_up_to f indices out0 out i) 0).
  - intros i out Hi Hinv.
    destruct (lookup_lt_is_Some_2 indices i ltac:(lia)) as [idx Hidx].
    exists (<[i := f idx]> out). apply write_step; try assumption. lia.
  - apply written_up_to_start.
Qed.

Lemma write_loop_fails (out0 : list A) :
  writes_each f indices body ->
  (length out0 < length indices)%nat ->
  for_loop body 0 (length indices) out0 = None.
Proof using Type.
  intros Hb Hlen.
  apply (for_loop_fails body
           (fun i out => written_up_to f indices out0 out i) 0 _ (length out0)).
  - lia.
  - intros i out Hi Hinv.
    destruct (lookup_lt_is_Some_2 indices i ltac:(lia)) as [idx Hidx].
    exists (<[i := f idx]> out). apply write_step; try assumption. lia.
  - intros out (Hl & _). rewrite Hb.
    destruct (lookup_lt_is_Some_2 indices (length out0) Hlen) as [idx Hidx].
    unfold vec_get. rewrite Hidx. simpl. rewrite vec_set_None by lia.
    reflexivity.
  - apply written_up_to_start.
Qed.

End Write_loop.

(** ** The batch evaluators *)

Section Evaluators.

Variable point : nat -> Point_3.
Variable normal : nat -> Vector_3.

Implicit Types (s : Plane) (indices : list nat).

Lemma squared_distance_body_writes s indices :
  writes_each (fun idx => squared_distance s (point idx)) indices
    (squared_distance_body point s indices).
Proof. intros i out. reflexivity. Qed.

Lemma cos_to_normal_body_writes s indices :
  writes_each (fun idx => cos_to_normal s (point idx) (normal idx)) indices
    (cos_to_normal_body normal s indices).
Proof. intros i out. reflexivity. Qed.

Lemma squared_distance_batch_runs s indices (dists : list FT) :
  (length indices <= length dists)%nat ->
  exists dists' : list FT,
    squared_distance_batch point s indices dists = Some dists' /\
    written_up_to (fun idx => squared_distance s (point idx)) indices
      dists dists' (length indices).
Proof.
  intros Hlen.
  destruct (write_loop_runs _ _ _ dists
              (squared_distance_body_writes s indices) Hlen)
    as (out & Hl & Hw).
  exists out. unfold squared_distance_batch. rewrite Hl.
  split; [reflexivity | exact Hw].
Qed.

Lemma squared_distance_batch_is_Some s indices (dists : list FT) :
  is_Some (squared_distance_batch point s indices dists)
  <-> (length indices <= length dists)%nat.
Proof.
  split.
  - intros [out H]. destruct (le_lt_dec (length indices) (length dists)) as [|Hlt];
      [assumption|].
    unfold squared_distance_batch in H.
    rewrite (write_loop_fails _ _ _ dists
               (squared_distance_body_writes s indices) Hlt) in H.
    discriminate H.
  - intros Hlen. destruct (squared_distance_batch_runs s indices dists Hlen)
      as (out & H & _).
    exists out. exact H.
Qed.

Lemma cos_to_normal_batch_runs s indices (angles : list FT) :
  (length indices <= length angles)%nat ->
  exists angles' : list FT,
    cos_to_normal_batch normal s indices angles = Some angles' /\
    written_up_to (fun idx => cos_to_normal s (point idx) (normal idx)) indices
      angles angles' (length indices).
Proof.
  intros Hlen.
  destruct (write_loop_runs _ _ _ angles
              (cos_to_normal_body_writes s indices) Hlen)
    as (out & Hl & Hw).
  exists out. unfold cos_to_normal_batch. rewrite Hl.
  split; [reflexivity | exact Hw].
Qed.

Lemma cos_to_normal_batch_is_Some s indices (angles : list FT) :
  is_Some (cos_to_normal_batch normal s indices angles)
  <-> (length indices <= length angles)%nat.
Proof.
  split.
  - intros [out H]. destruct (le_lt_dec (length indices) (length angles)) as [|Hlt];
      [assumption|].
    unfold cos_to_normal_batch in H.
    rewrite (write_loop_fails _ _ _ angles
               (cos_to_normal_body_writes s indices) Hlt) in H.
    discriminate H.
  - intros Hlen. destruct (cos_to_normal_batch_runs s indices angles Hlen)
      as (out & H & _).
    exists out. exact H.
Qed.

(** C5: the distance queries return the square of
    [(p - anchor_point) · normal], for one point and, entry by entry, for a
    batch; the stored [m_d] plays no part: any other value of it gives the
    same results. *)
Theorem squared_distance_from_anchor s indices (dists : list FT) (p : Point_3) :
  (length indices <= length dists)%nat ->
  squared_distance s p
  = ((p ⊖ m_point_on_primitive s) · m_normal s)
    * ((p ⊖ m_point_on_primitive s) · m_normal s) /\
  (forall d : FT, squared_distance (set_d d s) p = squared_distance s p) /\
  exists dists' : list FT,
    squared_distance_batch point s indices dists = Some dists' /\
    length dists' = length dists /\
    (forall (i idx : nat),
       indices !! i = Some idx ->
       dists' !! i
       = Some (((point idx ⊖ m_point_on_primitive s) · m_normal s)
               * ((point idx ⊖ m_point_on_primitive s) · m_normal s))) /\
    (forall d : FT,
       squared_distance_batch point (set_d d s) indices dists = Some dists').
Proof.
  intros Hlen. split; [reflexivity|]. split; [reflexivity|].
  destruct (squared_distance_batch_runs s indices dists Hlen)
    as (out & Hr & Hl & Hw & _).
  exists out. split; [exact Hr|]. split; [exact Hl|]. split.
  - intros i idx Hi. rewrite (Hw i idx (lookup_lt_Some _ _ _ Hi) Hi). reflexivity.
  - intros d. exact Hr.
Qed.

(** In exact arithmetic, for a fitted plane and a supplied normal of
    length 1, the angle queries return [|n · normal|], a number between 0
    and 1, for one normal and, entry by entry, for a batch. *)
Lemma cos_to_normal_unit_interval_exact s indices (angles : list FT)
    (p : Point_3) (n : Vector_3) :
  valid_plane point normal s ->
  unit_length n ->
  (forall (i idx : nat), indices !! i = Some idx -> unit_length (normal idx)) ->
  (length indices <= length angles)%nat ->
  (cos_to_normal s p n = Rabs (n · m_normal s) /\
   0 <= cos_to_normal s p n <= 1) /\
  exists angles' : list FT,
    cos_to_normal_batch normal s indices angles = Some angles' /\
    forall (i idx : nat),
      indices !! i = Some idx ->
      exists a : FT,
        angles' !! i = Some a /\
        a = Rabs (normal idx · m_normal s) /\ 0 <= a <= 1.
Proof.
  intros Hv Hn Hall Hlen.
  destruct (valid_plane_frame point normal s Hv) as (Hu & _).
  assert (Hunit : forall v : Vector_3, unit_length v -> squared_length v = 1).
  { intros v Hv1. rewrite <- vlength_sqr, Hv1. ring. }
  split.
  { split; [reflexivity|]. apply abs_dot_unit; [apply Hunit, Hn | exact Hu]. }
  destruct (cos_to_normal_batch_runs s indices angles Hlen)
    as (out & Hr & _ & Hw & _).
  exists out. split; [exact Hr|].
  intros i idx Hi. eexists. split.
  { apply (Hw i idx (lookup_lt_Some _ _ _ Hi) Hi). }
  split; [reflexivity|].
  apply abs_dot_unit; [apply Hunit, (Hall i idx Hi) | exact Hu].
Qed.

End Evaluators.

(** ** The parameterization *)

Lemma std_min_le_l (a b : FT) : std_min a b <= a.
Proof. unfold std_min. destruct (Rlt_dec b a); lra. Qed.

Lemma std_min_le_r (a b : FT) : std_min a b <= b.
Proof. unfold std_min. destruct (Rlt_dec b a); lra. Qed.

Lemma std_min_cases (a b : FT) : std_min a b = a \/ std_min a b = b.
Proof. unfold std_min. destruct (Rlt_dec b a); auto. Qed.

Lemma std_max_ge_l (a b : FT) : a <= std_max a b.
Proof. unfold std_max. destruct (Rlt_dec a b); lra. Qed.

Lemma std_max_ge_r (a b : FT) : b <= std_max a b.
Proof. unfold std_max. destruct (Rlt_dec a b); lra. Qed.

Lemma std_max_cases (a b : FT) : std_max a b = a \/ std_max a b = b.
Proof. unfold std_max. destruct (Rlt_dec a b); auto. Qed.

Section Parameterization.

Variable point : nat -> Point_3.
Variable normal : nat -> Vector_3.

Implicit Types (s : Plane) (indices : list nat) (o : Parameters).

(** One more point keeps the bounds right. *)
Lemma bounds_up_to_step (uv : nat -> FT * FT) indices o (i idx : nat)
    (ps : list (FT * FT)) :
  indices !! i = Some idx ->
  bounds_up_to uv indices o i ->
  bounds_up_to uv indices
    (mkParameters ps
       (std_min (min0 o) (fst (uv idx))) (std_min (min1 o) (snd (uv idx)))
       (std_max (max0 o) (fst (uv idx))) (std_max (max1 o) (snd (uv idx))))
    (S i).
Proof.
  intros Hi (Henc & Hmin0 & Hmax0 & Hmin1 & Hmax1).
  pose proof (std_min_le_l (min0 o) (fst (uv idx))).
  pose proof (std_min_le_r (min0 o) (fst (uv idx))).
  pose proof (std_min_le_l (min1 o) (snd (uv idx))).
  pose proof (std_min_le_r (min1 o) (snd (uv idx))).
  pose proof (std_max_ge_l (max0 o) (fst (uv idx))).
  pose proof (std_max_ge_r (max0 o) (fst (uv idx))).
  pose proof (std_max_ge_l (max1 o) (snd (uv idx))).
  pose proof (std_max_ge_r (max1 o) (snd (uv idx))).
  unfold bounds_up_to. cbn [min0 min1 max0 max1].
  split; [|repeat split].
  - intros j idx' Hj Hidx. destruct (decide (j = i)) as [->|Hne].
    + assert (idx' = idx) by congruence. subst idx'. lra.
    + destruct (Henc j idx' ltac:(lia) Hidx). lra.
  - destruct (std_min_cases (min0 o) (fst (uv idx))) as [->| ->].
    + destruct Hmin0 as (j & idx' & Hj & Hidx & E).
      exists j, idx'. split; [lia|]. split; assumption.
    + exists i, idx. split; [lia|]. split; [assumption | reflexivity].
  - destruct (std_max_cases (max0 o) (fst (uv idx))) as [->| ->].
    + destruct Hmax0 as (j & idx' & Hj & Hidx & E).
      exists j, idx'. split; [lia|]. split; assumption.
    + exists i, idx. split; [lia|]. split; [assumption | reflexivity].
  - destruct (std_min_cases (min1 o) (snd (uv idx))) as [->| ->].
    + destruct Hmin1 as (j & idx' & Hj & Hidx & E).
      exists j, idx'. split; [lia|]. split; assumption.
    + exists i, idx. split; [lia|]. split; [assumption | reflexivity].
  - destruct (std_max_cases (max1 o) (snd (uv idx))) as [->| ->].
    + destruct Hmax1 as (j & idx' & Hj & Hidx & E).
      exists j, idx'. split; [lia|]. split; assumption.
    + exists i, idx. split; [lia|]. split; [assumption | reflexivity].
Qed.

(** One iteration of the loop of [parameters]. *)
Lemma parameters_body_step s indices (ps0 : list (FT * FT)) o (i idx : nat) :
  indices !! i = Some idx -> (i < length ps0)%nat ->
  written_up_to (point_parameters point s) indices ps0 (parameterSpace o) i ->
  bounds_up_to (point_parameters point s) indices o i ->
  exists o',
    parameters_body point s indices i o = Some (Next o') /\
    written_up_to (point_parameters point s) indices ps0 (parameterSpace o') (S i) /\
    bounds_up_to (point_parameters point s) indices o' (S i).
Proof.
  intros Hi Hlt Hw Hb. eexists. split; [|split].
  - unfold parameters_body, vec_get. rewrite Hi. simpl.
    destruct Hw as (Hlen & _). rewrite vec_set_Some by lia. reflexivity.
  - apply (written_up_to_insert (point_parameters point s)); assumption.
  - apply (bounds_up_to_step (point_parameters point s)); assumption.
Qed.

Lemma parameters_body_fails s indices (ps0 : list (FT * FT)) o (i : nat) :
  (length ps0 <= i)%nat ->
  written_up_to (point_parameters point s) indices ps0 (parameterSpace o) i ->
  parameters_body point s indices i o = None.
Proof.
  intros Hge (Hlen & _). unfold parameters_body.
  destruct (vec_get indices i); [simpl | reflexivity].
  rewrite vec_set_None by lia. reflexivity.
Qed.

(** The state of [parameters] when it enters its loop. *)
Lemma parameters_first s indices (ps0 : list (FT * FT)) (i0 : nat) :
  indices !! 0%nat = Some i0 -> (0 < length ps0)%nat ->
  let uv := point_parameters point s i0 in
  let o1 := mkParameters (<[0%nat := uv]> ps0) (fst uv) (snd uv) (fst uv) (snd uv) in
  written_up_to (point_parameters point s) indices ps0 (parameterSpace o1) 1 /\
  bounds_up_to (point_parameters point s) indices o1 1.
Proof.
  intros Hi Hlt uv o1. split.
  - apply (written_up_to_insert (point_parameters point s));
      [assumption | assumption | apply written_up_to_start].
  - unfold bounds_up_to. cbn [min0 min1 max0 max1 o1].
    split; [|repeat split; exists 0%nat, i0; (split; [lia|]); split;
              (assumption || reflexivity)].
    intros j idx Hj Hidx. assert (j = 0)%nat by lia. subst j.
    assert (idx = i0) by congruence. subst idx. fold uv. lra.
Qed.

Lemma parameters_runs s indices (ps0 : list (FT * FT)) :
  (0 < length indices <= length ps0)%nat ->
  exists o,
    parameters point s indices ps0 = Some o /\
    written_up_to (point_parameters point s) indices ps0 (parameterSpace o)
      (length indices) /\
    bounds_up_to (point_parameters point s) indices o (length indices).
Proof.
  intros [Hpos Hlen].
  destruct (lookup_lt_is_Some_2 indices 0 Hpos) as [i0 Hi0].
  destruct (parameters_first s indices ps0 i0 Hi0 ltac:(lia)) as [Hw1 Hb1].
  destruct (for_loop_invariant (parameters_body point s indices)
              (fun i o =>
                 written_up_to (point_parameters point s) indices ps0
                   (parameterSpace o) i /\
                 bounds_up_to (point_parameters point s) indices o i)
              1 (length indices - 1)
              (mkParameters (<[0%nat := point_parameters point s i0]> ps0)
                 (fst (point_parameters point s i0))
                 (snd (point_parameters point s i0))
                 (fst (point_parameters point s i0))
                 (snd (point_parameters point s i0))))
    as (o & Hl & Hw & Hb).
  - intros i st Hi [Hw Hb].
    destruct (lookup_lt_is_Some_2 indices i ltac:(lia)) as [idx Hidx].
    apply (parameters_body_step s indices ps0 st i idx); try assumption. lia.
  - split; assumption.
  - replace (1 + (length indices - 1))%nat with (length indices) in * by lia.
    exists o. split; [|split; assumption].
    unfold parameters, vec_get. rewrite Hi0. simpl.
    rewrite vec_set_Some by lia. simpl.
    change (for_loop (parameters_body point s indices) 1 (length indices - 1)
              (mkParameters (<[0%nat := point_parameters point s i0]> ps0)
                 (fst (point_parameters point s i0))
                 (snd (point_parameters point s i0))
                 (fst (point_parameters point s i0))
                 (snd (point_parameters point s i0)))
            ≫= (fun r => match r with Next o | Return o => Some o end)
            = Some o).
    rewrite Hl. reflexivity.
Qed.

Lemma parameters_is_Some s indices (ps0 : list (FT * FT)) :
  is_Some (parameters point s indices ps0)
  <-> (0 < length indices <= length ps0)%nat.
Proof.
  split.
  - intros [o H].
    destruct (le_lt_dec (length indices) 0) as [Hz|Hpos].
    { destruct indices; [discriminate H | simpl in Hz; lia]. }
    split; [exact Hpos|].
    destruct (le_lt_dec (length indices) (length ps0)) as [|Hlt]; [assumption|].
    exfalso.
    destruct (lookup_lt_is_Some_2 indices 0 Hpos) as [i0 Hi0].
    unfold parameters, vec_get in H. rewrite Hi0 in H. simpl in H.
    destruct (le_lt_dec (length ps0) 0) as [Hz|Hps].
    { rewrite vec_set_None in H by lia. discriminate H. }
    rewrite vec_set_Some in H by lia. simpl in H.
    destruct (parameters_first s indices ps0 i0 Hi0 Hps) as [Hw1 Hb1].
    rewrite (for_loop_fails (parameters_body point s indices)
               (fun i o =>
                  written_up_to (point_parameters point s) indices ps0
                    (parameterSpace o) i /\
                  bounds_up_to (point_parameters point s) indices o i)
               1 (length indices - 1) (length ps0)) in H.
    + discriminate H.
    + lia.
    + intros i st Hi [Hw Hb].
      destruct (lookup_lt_is_Some_2 indices i ltac:(lia)) as [idx Hidx].
      apply (parameters_body_step s indices ps0 st i idx); try assumption. lia.
    + intros st [Hw _].
      apply (parameters_body_fails s indices ps0); [lia | exact Hw].
    + split; assumption.
  - intros Hlen. destruct (parameters_runs s indices ps0 Hlen) as (o & H & _).
    exists o. exact H.
Qed.

End Parameterization.

Section Parameterization_claims.

Variable point : nat -> Point_3.
Variable normal : nat -> Vector_3.

Implicit Types (s : Plane) (indices : list nat).




(** C10: the container accesses of the operations are within the bounds
    exactly under the size conditions: [create_shape] needs a sample of at
    least [minimum_sample_size] = 3 indices; [parameters] needs a batch that
    is not empty and an output vector of at least its size; the batch
    [squared_distance] and [cos_to_normal] need an output vector of at
    least the size of the batch. *)
Theorem container_accesses_in_bounds s indices
    (parameterSpace0 : list (FT * FT)) (dists angles : list FT) :
  (is_Some (create_shape point normal indices s)
   <-> (minimum_sample_size <= length indices)%nat) /\
  (is_Some (parameters point s indices parameterSpace0)
   <-> (0 < length indices <= length parameterSpace0)%nat) /\
  (is_Some (squared_distance_batch point s indices dists)
   <-> (length indices <= length dists)%nat) /\
  (is_Some (cos_to_normal_batch normal s indices angles)
   <-> (length indices <= length angles)%nat).
Proof.
  split; [apply create_shape_is_Some|].
  split; [apply parameters_is_Some|].
  split; [apply squared_distance_batch_is_Some|].
  apply (cos_to_normal_batch_is_Some point).
Qed.

End Parameterization_claims.

(** ** The claims on the fitted example *)

(** C5 on the fitted example, for the point (0,0,5) and the three sample
    points, with an output vector of four entries. *)
Lemma squared_distance_from_anchor_witness :
  squared_distance fitted_example (mkPoint 0 0 5)
  = ((mkPoint 0 0 5 ⊖ m_point_on_primitive fitted_example)
     · m_normal fitted_example)
    * ((mkPoint 0 0 5 ⊖ m_point_on_primitive fitted_example)
       · m_normal fitted_example) /\
  (forall d : FT,
     squared_distance (set_d d fitted_example) (mkPoint 0 0 5)
     = squared_distance fitted_example (mkPoint 0 0 5)) /\
  exists dists' : list FT,
    squared_distance_batch sample_point fitted_example [0; 1; 2]%nat [7; 7; 7; 7]
    = Some dists' /\
    length dists' = length [7; 7; 7; 7] /\
    (forall (i idx : nat),
       [0; 1; 2]%nat !! i = Some idx ->
       dists' !! i
       = Some (((sample_point idx ⊖ m_point_on_primitive fitted_example)
                · m_normal fitted_example)
               * ((sample_point idx ⊖ m_point_on_primitive fitted_example)
                  · m_normal fitted_example))) /\
    (forall d : FT,
       squared_distance_batch sample_point (set_d d fitted_example)
         [0; 1; 2]%nat [7; 7; 7; 7]
       = Some dists').
Proof.
  apply (squared_distance_from_anchor sample_point fitted_example
           [0; 1; 2]%nat [7; 7; 7; 7] (mkPoint 0 0 5)).
  simpl. lia.
Defined.



(** ** More on [create_shape] *)

Section Fitting_more.

Variable point : nat -> Point_3.
Variable normal : nat -> Vector_3.

Implicit Types (s : Plane) (indices rest : list nat).

(** X1: from a newly constructed plane, [create_shape] ends with a valid
    plane exactly when the sample is not degenerate and each of its three
    supplied normals passes the test against the fitted normal. *)
Theorem create_shape_valid_iff (i0 i1 i2 : nat) rest (s0 : Plane) :
  m_is_valid s0 = false ->
  (exists s : Plane,
     create_shape point normal (i0 :: i1 :: i2 :: rest) s0 = Some s /\
     m_is_valid s = true)
  <->
  (0.0001 <= vlength (sample_cross (point i0) (point i1) (point i2)) /\
   consistent (m_normal_threshold s0) (normal i0)
     (fitted_normal (point i0) (point i1) (point i2)) /\
   consistent (m_normal_threshold s0) (normal i1)
     (fitted_normal (point i0) (point i1) (point i2)) /\
   consistent (m_normal_threshold s0) (normal i2)
     (fitted_normal (point i0) (point i1) (point i2))).
Proof.
  intros Hv0. split.
  - intros (s & Hc & Hv).
    destruct (create_shape_valid_inv point normal _ s0 s Hv0 Hc Hv)
      as (j0 & j1 & j2 & rest' & E & Hl & H0 & H1 & H2 & _).
    injection E as -> -> -> _. auto.
  - intros (Hl & H0 & H1 & H2). eexists. split.
    + apply create_shape_consistent; assumption.
    + reflexivity.
Qed.

(** X2: on a degenerate sample [create_shape] stores the cross product as
    it is, shorter than 1e-4 and not scaled, in the normal, and changes no
    other field. *)
Theorem create_shape_degenerate_fields (i0 i1 i2 : nat) rest s :
  vlength (sample_cross (point i0) (point i1) (point i2)) < 0.0001 ->
  exists s' : Plane,
    create_shape point normal (i0 :: i1 :: i2 :: rest) s = Some s' /\
    m_normal s' = cross_product (point i0 ⊖ point i1) (point i0 ⊖ point i2) /\
    vlength (m_normal s') < 0.0001 /\
    m_is_valid s' = m_is_valid s /\
    m_normal_threshold s' = m_normal_threshold s /\
    m_point_on_primitive s' = m_point_on_primitive s /\
    m_base1 s' = m_base1 s /\
    m_base2 s' = m_base2 s /\
    m_d s' = m_d s.
Proof.
  intros Hd. eexists. split; [apply create_shape_degenerate, Hd|].
  cbn [set_normal m_normal m_is_valid m_normal_threshold m_point_on_primitive
       m_base1 m_base2 m_d].
  repeat split. exact Hd.
Qed.

(** X3: [create_shape] looks at the first three indices of the sample
    only: indices after them change nothing. *)
Theorem create_shape_ignores_rest (i0 i1 i2 : nat) rest s :
  create_shape point normal (i0 :: i1 :: i2 :: rest) s
  = create_shape point normal [i0; i1; i2] s.
Proof.
  destruct (Rlt_or_le
    (vlength (sample_cross (point i0) (point i1) (point i2))) 0.0001) as [Hd|Hd].
  { rewrite !create_shape_degenerate by exact Hd. reflexivity. }
  set (t := m_normal_threshold s).
  set (nrm := fitted_normal (point i0) (point i1) (point i2)).
  destruct (consistent_or_deviates t (normal i0) nrm) as [H0|H0];
    [|erewrite !create_shape_deviates_0 by eassumption; reflexivity].
  destruct (consistent_or_deviates t (normal i1) nrm) as [H1|H1];
    [|erewrite !create_shape_deviates_1 by eassumption; reflexivity].
  destruct (consistent_or_deviates t (normal i2) nrm) as [H2|H2];
    [|erewrite !create_shape_deviates_2 by eassumption; reflexivity].
  erewrite !create_shape_consistent by eassumption. reflexivity.
Qed.

End Fitting_more.

(** ** More on the batch operations *)

Section Queries_more.

Variable point : nat -> Point_3.
Variable normal : nat -> Vector_3.

Implicit Types (s : Plane) (indices : list nat).

(** X8: the three batch operations write the first [|indices|] entries of
    their output vector only: its size and its later entries are the ones
    on entry. *)
Theorem batch_outputs_keep_rest s indices
    (parameterSpace0 : list (FT * FT)) (dists angles : list FT) :
  (0 < length indices <= length parameterSpace0)%nat ->
  (length indices <= length dists)%nat ->
  (length indices <= length angles)%nat ->
  exists (o : Parameters) (dists' angles' : list FT),
    parameters point s indices parameterSpace0 = Some o /\
    squared_distance_batch point s indices dists = Some dists' /\
    cos_to_normal_batch normal s indices angles = Some angles' /\
    length (parameterSpace o) = length parameterSpace0 /\
    length dists' = length dists /\
    length angles' = length angles /\
    forall j : nat,
      (length indices <= j)%nat ->
      parameterSpace o !! j = parameterSpace0 !! j /\
      dists' !! j = dists !! j /\
      angles' !! j = angles !! j.
Proof.
  intros Hp Hd Ha.
  destruct (parameters_runs point s indices parameterSpace0 Hp)
    as (o & Hr & (Hlo & _ & Hko) & _).
  destruct (squared_distance_batch_runs point s indices dists Hd)
    as (dists' & Hrd & Hld & _ & Hkd).
  destruct (cos_to_normal_batch_runs point normal s indices angles Ha)
    as (angles' & Hra & Hla & _ & Hka).
  exists o, dists', angles'. repeat split; auto.
Qed.


End Queries_more.

(** ** The further properties on the examples *)

(** X1 on the sample of the specification. *)
Lemma create_shape_valid_iff_witness :
  (exists s : Plane,
     create_shape sample_point upward_normal [0; 1; 2]%nat (new_plane 0.9)
     = Some s /\
     m_is_valid s = true)
  <->
  (0.0001
   <= vlength (sample_cross (sample_point 0) (sample_point 1) (sample_point 2)) /\
   consistent (m_normal_threshold (new_plane 0.9)) (upward_normal 0)
     (fitted_normal (sample_point 0) (sample_point 1) (sample_point 2)) /\
   consistent (m_normal_threshold (new_plane 0.9)) (upward_normal 1)
     (fitted_normal (sample_point 0) (sample_point 1) (sample_point 2)) /\
   consistent (m_normal_threshold (new_plane 0.9)) (upward_normal 2)
     (fitted_normal (sample_point 0) (sample_point 1) (sample_point 2))).
Proof.
  apply (create_shape_valid_iff sample_point upward_normal 0 1 2 []
           (new_plane 0.9)).
  reflexivity.
Defined.

(** X2 on three points of a line. *)
Lemma create_shape_degenerate_fields_witness :
  exists s' : Plane,
    create_shape collinear_point upward_normal [0; 1; 2]%nat (new_plane 0.9)
    = Some s' /\
    m_normal s'
    = cross_product (collinear_point 0 ⊖ collinear_point 1)
        (collinear_point 0 ⊖ collinear_point 2) /\
    vlength (m_normal s') < 0.0001 /\
    m_is_valid s' = m_is_valid (new_plane 0.9) /\
    m_normal_threshold s' = m_normal_threshold (new_plane 0.9) /\
    m_point_on_primitive s' = m_point_on_primitive (new_plane 0.9) /\
    m_base1 s' = m_base1 (new_plane 0.9) /\
    m_base2 s' = m_base2 (new_plane 0.9) /\
    m_d s' = m_d (new_plane 0.9).
Proof.
  apply (create_shape_degenerate_fields collinear_point upward_normal
           0 1 2 [] (new_plane 0.9)).
  rewrite sample_cross_collinear, vlength_null. lra.
Defined.

(** X8 on the fitted example, with output vectors of four entries for a
    batch of three. *)
Lemma batch_outputs_keep_rest_witness :
  exists (o : Parameters) (dists' angles' : list FT),
    parameters sample_point fitted_example [0; 1; 2]%nat
      [(7, 7); (7, 7); (7, 7); (7, 7)]
    = Some o /\
    squared_distance_batch sample_point fitted_example [0; 1; 2]%nat
      [7; 7; 7; 7]
    = Some dists' /\
    cos_to_normal_batch upward_normal fitted_example [0; 1; 2]%nat [7; 7; 7; 7]
    = Some angles' /\
    length (parameterSpace o) = length [(7, 7); (7, 7); (7, 7); (7, 7)] /\
    length dists' = length [7; 7; 7; 7] /\
    length angles' = length [7; 7; 7; 7] /\
    forall j : nat,
      (length [0; 1; 2]%nat <= j)%nat ->
      parameterSpace o !! j = [(7, 7); (7, 7); (7, 7); (7, 7)] !! j /\
      dists' !! j = [7; 7; 7; 7] !! j /\
      angles' !! j = [7; 7; 7; 7] !! j.
Proof.
  apply (batch_outputs_keep_rest sample_point upward_normal fitted_example
           [0; 1; 2]%nat [(7, 7); (7, 7); (7, 7); (7, 7)]
           [7; 7; 7; 7] [7; 7; 7; 7]).
  - simpl. lia.
  - simpl. lia.
  - simpl. lia.
Defined.


(** ** The test of the supplied normals *)

Section Normal_test.

Variable point : nat -> Point_3.
Variable normal : nat -> Vector_3.

Implicit Types (s : Plane) (indices rest : list nat).

(** X14: with a threshold that is not positive the test of the normals
    lets every sample pass, and a supplied normal that is the null vector
    passes under any threshold: then each sample that is not degenerate
    gives a valid plane. *)
Theorem create_shape_accepts (i0 i1 i2 : nat) rest s :
  0.0001 <= vlength (sample_cross (point i0) (point i1) (point i2)) ->
  (forall (k idx : nat),
     [i0; i1; i2] !! k = Some idx ->
     m_normal_threshold s <= 0 \/ vlength (normal idx) = 0) ->
  exists s' : Plane,
    create_shape point normal (i0 :: i1 :: i2 :: rest) s = Some s' /\
    m_is_valid s' = true.
Proof.
  intros Hl Hall.
  assert (Hc : forall (k idx : nat),
            [i0; i1; i2] !! k = Some idx ->
            consistent (m_normal_threshold s) (normal idx)
              (fitted_normal (point i0) (point i1) (point i2))).
  { intros k idx Hk. unfold consistent, abs.
    pose proof (Rabs_pos
      (normal idx · fitted_normal (point i0) (point i1) (point i2))) as Ha.
    pose proof (vlength_nonneg (normal idx)) as Hp.
    destruct (Hall k idx Hk) as [Ht|Hz]; [nra | rewrite Hz; lra]. }
  eexists. split.
  - apply create_shape_consistent;
      [exact Hl | apply (Hc 0%nat) | apply (Hc 1%nat) | apply (Hc 2%nat)];
      reflexivity.
  - reflexivity.
Qed.

End Normal_test.

(** X14 on the sample of the specification, with the normal (1,0,0) at
    each point and the threshold 0. *)
Lemma create_shape_accepts_witness :
  exists s' : Plane,
    create_shape sample_point (sideways_from 0) [0; 1; 2]%nat (new_plane 0)
    = Some s' /\
    m_is_valid s' = true.
Proof.
  apply (create_shape_accepts sample_point (sideways_from 0) 0 1 2 []
           (new_plane 0)).
  - exact sample_not_degenerate.
  - intros k idx _. left. simpl. lra.
Defined.

(** ** The binary64 instantiation: the cases of [create_shape] *)

(** The absolute value of a binary64 number is never below 0. *)
Lemma b64_abs_not_negative (x : float) : (PrimFloat.abs x <? 0)%float = false.
Proof.
  rewrite ltb_spec, abs_spec.
  change (Prim2SF 0%float) with (S754_zero false).
  destruct (Prim2SF x) as [s | s | | s m e]; reflexivity.
Qed.

Section Binary64_cases.

Variable point : nat -> Binary64.Point_3.
Variable normal : nat -> Binary64.Vector_3.

Implicit Types (s : Binary64.Plane) (indices rest : list nat).

Lemma b64_create_shape_unfold i0 i1 i2 rest s :
  Binary64.create_shape point normal (i0 :: i1 :: i2 :: rest) s =
    if Binary64.too_short (point i0) (point i1) (point i2)
    then Some (Binary64.set_normal
                 (Binary64.sample_cross (point i0) (point i1) (point i2)) s)
    else
      r ← for_loop
            (Binary64.check_body normal (i0 :: i1 :: i2 :: rest)
               (point i0) (point i1)) 0 3
            (Binary64.with_equation (point i0) (point i1) (point i2) s);
      match r with
      | Return s' => Some s'
      | Next s' => Some (Binary64.set_is_valid true s')
      end.
Proof. reflexivity. Qed.

Lemma b64_check_body_passes indices (p1 p2 : Binary64.Point_3) i idx s :
  indices !! i = Some idx ->
  Binary64.deviates (Binary64.m_normal_threshold s) (normal idx)
    (Binary64.m_normal s) = false ->
  Binary64.check_body normal indices p1 p2 i s
  = Some (Next (Binary64.set_frame p1 p2 s)).
Proof.
  intros Hi Hd. unfold Binary64.check_body, vec_get. rewrite Hi. simpl.
  unfold Binary64.deviates in Hd. rewrite Hd. reflexivity.
Qed.



Lemma b64_cos_to_normal_body_writes s indices :
  writes_each
    (fun idx => Binary64.cos_to_normal s (point idx) (normal idx)) indices
    (Binary64.cos_to_normal_body normal s indices).
Proof. intros i out. reflexivity. Qed.

Lemma b64_cos_to_normal_batch_runs s indices (angles : list float) :
  (length indices <= length angles)%nat ->
  exists angles' : list float,
    Binary64.cos_to_normal_batch normal s indices angles = Some angles' /\
    written_up_to
      (fun idx => Binary64.cos_to_normal s (point idx) (normal idx)) indices
      angles angles' (length indices).
Proof.
  intros Hlen.
  destruct (write_loop_runs _ _ _ angles
              (b64_cos_to_normal_body_writes s indices) Hlen)
    as (out & Hl & Hw).
  exists out. unfold Binary64.cos_to_normal_batch. rewrite Hl.
  split; [reflexivity | exact Hw].
Qed.

End Binary64_cases.

(** ** The claims that depend on rounding *)








(** C6, as the code has it.  With binary64 numbers the angle queries
    return [|n · normal|], for one normal and, entry by entry, for a
    batch, and the value is never below 0.  In exact arithmetic, for a
    fitted plane and a supplied normal of length 1, the value is at most 1
    as well. *)
Theorem cos_to_normal_value :
  (forall (s : Binary64.Plane) (p : Binary64.Point_3) (n : Binary64.Vector_3),
     Binary64.cos_to_normal s p n
     = PrimFloat.abs (Binary64.dot n (Binary64.m_normal s)) /\
     (Binary64.cos_to_normal s p n <? 0)%float = false) /\
  (forall (normal : nat -> Binary64.Vector_3) (s : Binary64.Plane)
          (indices : list nat) (angles : list float),
     (length indices <= length angles)%nat ->
     exists angles' : list float,
       Binary64.cos_to_normal_batch normal s indices angles = Some angles' /\
       forall (i idx : nat),
         indices !! i = Some idx ->
         exists a : float,
           angles' !! i = Some a /\
           a = PrimFloat.abs (Binary64.dot (normal idx) (Binary64.m_normal s)) /\
           (a <? 0)%float = false) /\
  (forall (point : nat -> Point_3) (normal : nat -> Vector_3) (s : Plane)
          (indices : list nat) (angles : list FT)
          (p : Point_3) (n : Vector_3),
     valid_plane point normal s ->
     unit_length n ->
     (forall (i idx : nat), indices !! i = Some idx -> unit_length (normal idx)) ->
     (length indices <= length angles)%nat ->
     (cos_to_normal s p n = Rabs (n · m_normal s) /\
      0 <= cos_to_normal s p n <= 1) /\
     exists angles' : list FT,
       cos_to_normal_batch normal s indices angles = Some angles' /\
       forall (i idx : nat),
         indices !! i = Some idx ->
         exists a : FT,
           angles' !! i = Some a /\
           a = Rabs (normal idx · m_normal s) /\ 0 <= a <= 1).
Proof.
  split; [|split].
  - intros s p n. split; [reflexivity|]. apply b64_abs_not_negative.
  - intros normal s indices angles Hlen.
    destruct (b64_cos_to_normal_batch_runs
                (fun _ => Binary64.mkPoint 0 0 0) normal s indices angles Hlen)
      as (out & Hr & _ & Hw & _).
    exists out. split; [exact Hr|].
    intros i idx Hi. eexists. split.
    { apply (Hw i idx (lookup_lt_Some _ _ _ Hi) Hi). }
    split; [reflexivity|]. apply b64_abs_not_negative.
  - intros point normal s indices angles p n.
    apply cos_to_normal_unit_interval_exact.
Qed.

(** C6 on the plane fitted from the sample of the specification, for the
    normals (0,0,1), in binary64 and in exact arithmetic. *)
Lemma cos_to_normal_value_witness :
  (exists angles' : list float,
     Binary64.cos_to_normal_batch Binary64.upward_normal
       Binary64.fitted_example [0; 1; 2]%nat [7; 7; 7]%float
     = Some angles' /\
     forall (i idx : nat),
       [0; 1; 2]%nat !! i = Some idx ->
       exists a : float,
         angles' !! i = Some a /\
         a = PrimFloat.abs
               (Binary64.dot (Binary64.upward_normal idx)
                  (Binary64.m_normal Binary64.fitted_example)) /\
         (a <? 0)%float = false) /\
  ((cos_to_normal fitted_example (mkPoint 0 0 0) (mkVector 0 0 1)
    = Rabs (mkVector 0 0 1 · m_normal fitted_example) /\
    0 <= cos_to_normal fitted_example (mkPoint 0 0 0) (mkVector 0 0 1) <= 1) /\
   exists angles' : list FT,
     cos_to_normal_batch upward_normal fitted_example [0; 1; 2]%nat [7; 7; 7]
     = Some angles' /\
     forall (i idx : nat),
       [0; 1; 2]%nat !! i = Some idx ->
       exists a : FT,
         angles' !! i = Some a /\
         a = Rabs (upward_normal idx · m_normal fitted_example) /\
         0 <= a <= 1).
Proof.
  split.
  - apply (proj1 (proj2 cos_to_normal_value) Binary64.upward_normal
             Binary64.fitted_example [0; 1; 2]%nat [7; 7; 7]%float).
    simpl. lia.
  - apply (proj2 (proj2 cos_to_normal_value) sample_point upward_normal
             fitted_example [0; 1; 2]%nat [7; 7; 7]
             (mkPoint 0 0 0) (mkVector 0 0 1)).
    + exact valid_plane_example.
    + exact vlength_e3.
    + intros i idx _. exact vlength_e3.
    + simpl. lia.
Defined.

(** C6, as the specification has it, fails with binary64 numbers.  The
    plane fitted from (1,0,0), (0,1,0), (0,0,1), with the supplied normals
    (1,1,1) and the threshold 0.9, is valid, and the length that is
    computed for its normal is 1; the angle query for this normal returns
    1.0000000000000002, which is above 1, for one normal and in a
    batch. *)
Lemma cos_to_normal_above_one :
  match Binary64.create_shape Binary64.corner_point Binary64.diagonal_normal
          [0; 1; 2]%nat (Binary64.new_plane 0.9) with
  | Some s =>
      Binary64.m_is_valid s = true /\
      Binary64.sqrt (Binary64.squared_length (Binary64.m_normal s)) = 1%float /\
      Binary64.cos_to_normal s (Binary64.mkPoint 0 0 0) (Binary64.m_normal s)
      = 0x1.0000000000001p+0%float /\
      (1 <? Binary64.cos_to_normal s (Binary64.mkPoint 0 0 0)
              (Binary64.m_normal s))%float = true /\
      Binary64.cos_to_normal_batch (fun _ => Binary64.m_normal s) s
        [0]%nat [0]%float
      = Some [0x1.0000000000001p+0]%float
  | None => False
  end.
Proof. vm_compute. repeat split. Qed.

(** ** The binary64 instantiation: what does not depend on rounding *)

Section Binary64_flow.

Variable point : nat -> Binary64.Point_3.
Variable normal : nat -> Binary64.Vector_3.

Implicit Types (s : Binary64.Plane) (indices rest : list nat).

Lemma b64_check_body_fails indices (p1 p2 : Binary64.Point_3) i idx s :
  indices !! i = Some idx ->
  Binary64.deviates (Binary64.m_normal_threshold s) (normal idx)
    (Binary64.m_normal s) = true ->
  Binary64.check_body normal indices p1 p2 i s
  = Some (Return (Binary64.set_is_valid false s)).
Proof.
  intros Hi Hd. unfold Binary64.check_body, vec_get. rewrite Hi. simpl.
  unfold Binary64.deviates in Hd. rewrite Hd. reflexivity.
Qed.

(** The result of [create_shape], by its tests. *)
Lemma b64_create_shape_eq i0 i1 i2 rest s :
  let p1 := point i0 in
  let p2 := point i1 in
  let p3 := point i2 in
  let t := Binary64.m_normal_threshold s in
  let nrm := Binary64.fitted_normal p1 p2 p3 in
  let s1 := Binary64.with_equation p1 p2 p3 s in
  Binary64.create_shape point normal (i0 :: i1 :: i2 :: rest) s
  = Some
      (if Binary64.too_short p1 p2 p3
       then Binary64.set_normal (Binary64.sample_cross p1 p2 p3) s
       else if Binary64.deviates t (normal i0) nrm
       then Binary64.set_is_valid false s1
       else if Binary64.deviates t (normal i1) nrm
                || Binary64.deviates t (normal i2) nrm
       then Binary64.set_is_valid false (Binary64.set_frame p1 p2 s1)
       else Binary64.set_is_valid true (Binary64.set_frame p1 p2 s1)).
Proof.
  intros p1 p2 p3 t nrm s1. rewrite b64_create_shape_unfold.
  fold p1 p2 p3 s1.
  destruct (Binary64.too_short p1 p2 p3); [reflexivity|].
  cbn [for_loop].
  destruct (Binary64.deviates t (normal i0) nrm) eqn:E0.
  { rewrite (b64_check_body_fails _ _ _ _ i0) by (try reflexivity; exact E0).
    reflexivity. }
  rewrite (b64_check_body_passes _ _ _ _ _ i0) by (try reflexivity; exact E0).
  destruct (Binary64.deviates t (normal i1) nrm) eqn:E1.
  { rewrite (b64_check_body_fails _ _ _ _ i1) by (try reflexivity; exact E1).
    reflexivity. }
  rewrite (b64_check_body_passes _ _ _ _ _ i1) by (try reflexivity; exact E1).
  destruct (Binary64.deviates t (normal i2) nrm) eqn:E2.
  { rewrite (b64_check_body_fails _ _ _ _ i2) by (try reflexivity; exact E2).
    reflexivity. }
  rewrite (b64_check_body_passes _ _ _ _ _ i2) by (try reflexivity; exact E2).
  reflexivity.
Qed.

End Binary64_flow.

Section Binary64_claims.

Variable point : nat -> Binary64.Point_3.
Variable normal : nat -> Binary64.Vector_3.

Implicit Types (s : Binary64.Plane) (indices rest : list nat).

(** X18: with binary64 numbers, from a newly constructed plane,
    [create_shape] ends with a valid plane exactly when the length that it
    computes is not below 0.0001 and none of the three supplied normals
    fails its test. *)
Theorem b64_create_shape_valid_iff (i0 i1 i2 : nat) rest (s0 : Binary64.Plane) :
  Binary64.m_is_valid s0 = false ->
  (exists s : Binary64.Plane,
     Binary64.create_shape point normal (i0 :: i1 :: i2 :: rest) s0 = Some s /\
     Binary64.m_is_valid s = true)
  <->
  (Binary64.too_short (point i0) (point i1) (point i2) = false /\
   Binary64.deviates (Binary64.m_normal_threshold s0) (normal i0)
     (Binary64.fitted_normal (point i0) (point i1) (point i2)) = false /\
   Binary64.deviates (Binary64.m_normal_threshold s0) (normal i1)
     (Binary64.fitted_normal (point i0) (point i1) (point i2)) = false /\
   Binary64.deviates (Binary64.m_normal_threshold s0) (normal i2)
     (Binary64.fitted_normal (point i0) (point i1) (point i2)) = false).
Proof.
  intros Hv0. rewrite b64_create_shape_eq. cbv zeta.
  destruct (Binary64.too_short _ _ _);
    destruct (Binary64.deviates _ (normal i0) _);
    destruct (Binary64.deviates _ (normal i1) _);
    destruct (Binary64.deviates _ (normal i2) _); cbn [orb]; split.
  all: try (intros (s & E & Hv); injection E as <-;
            cbn [Binary64.m_is_valid Binary64.set_is_valid Binary64.set_normal]
              in Hv;
            try discriminate Hv; try congruence; auto).
  all: intros (H & H0 & H1 & H2); try discriminate.
  eexists. split; reflexivity.
Qed.

(** X19: with binary64 numbers, when the length is not below 0.0001 and
    the supplied normal of the sample point [k] fails the test, the plane
    is not valid, and the result is the same for any other supplied
    normals that agree on the sample points up to [k]. *)
Theorem b64_create_shape_rejects_deviating_normal
    (normal' : nat -> Binary64.Vector_3)
    (i0 i1 i2 : nat) rest (s : Binary64.Plane) (k idx : nat) :
  Binary64.too_short (point i0) (point i1) (point i2) = false ->
  [i0; i1; i2] !! k = Some idx ->
  Binary64.deviates (Binary64.m_normal_threshold s) (normal idx)
    (Binary64.fitted_normal (point i0) (point i1) (point i2)) = true ->
  (forall (j idx' : nat),
     (j <= k)%nat -> [i0; i1; i2] !! j = Some idx' ->
     normal' idx' = normal idx') ->
  exists s' : Binary64.Plane,
    Binary64.create_shape point normal (i0 :: i1 :: i2 :: rest) s = Some s' /\
    Binary64.m_is_valid s' = false /\
    Binary64.create_shape point normal' (i0 :: i1 :: i2 :: rest) s = Some s'.
Proof.
  intros Hl Hk Hd Hsame.
  rewrite !b64_create_shape_eq. cbv zeta. rewrite Hl.
  assert (E0 : normal' i0 = normal i0)
    by (apply (Hsame 0%nat); [lia | reflexivity]).
  rewrite E0.
  destruct (Binary64.deviates _ (normal i0) _) eqn:D0;
    [eexists; repeat split|].
  destruct k as [|k]; [injection Hk as <-; congruence|].
  assert (E1 : normal' i1 = normal i1)
    by (apply (Hsame 1%nat); [lia | reflexivity]).
  rewrite E1.
  destruct (Binary64.deviates _ (normal i1) _) eqn:D1;
    [eexists; repeat split|].
  destruct k as [|k]; [injection Hk as <-; congruence|].
  destruct k as [|k]; [|discriminate Hk]. injection Hk as <-.
  assert (E2 : normal' i2 = normal i2)
    by (apply (Hsame 2%nat); [lia | reflexivity]).
  rewrite E2, Hd. eexists; repeat split.
Qed.

(** X20: with binary64 numbers, the container accesses of [create_shape]
    and of the batch [cos_to_normal] are within the bounds exactly when
    the sample has at least 3 indices, and when the output vector is at
    least as long as the batch; [create_shape] looks at the first three
    indices only. *)
Theorem b64_container_accesses_in_bounds s indices (angles : list float) :
  (is_Some (Binary64.create_shape point normal indices s)
   <-> (3 <= length indices)%nat) /\
  (is_Some (Binary64.cos_to_normal_batch normal s indices angles)
   <-> (length indices <= length angles)%nat) /\
  (forall (i0 i1 i2 : nat) rest,
     Binary64.create_shape point normal (i0 :: i1 :: i2 :: rest) s
     = Binary64.create_shape point normal [i0; i1; i2] s).
Proof.
  split; [|split].
  - split.
    + intros [s' H]. destruct indices as [|i0 [|i1 [|i2 rest]]];
        try discriminate H. simpl. lia.
    + intros H. destruct indices as [|i0 [|i1 [|i2 rest]]];
        simpl in H; try lia.
      rewrite b64_create_shape_eq. eexists; reflexivity.
  - split.
    + intros [out H].
      destruct (le_lt_dec (length indices) (length angles)) as [|Hlt];
        [assumption|].
      unfold Binary64.cos_to_normal_batch in H.
      rewrite (write_loop_fails _ _ _ angles
                 (b64_cos_to_normal_body_writes
                    (fun _ => Binary64.mkPoint 0 0 0) normal s indices) Hlt)
        in H.
      discriminate H.
    + intros Hlen.
      destruct (b64_cos_to_normal_batch_runs
                  (fun _ => Binary64.mkPoint 0 0 0) normal s indices angles Hlen)
        as (out & H & _).
      exists out. exact H.
  - intros i0 i1 i2 rest. rewrite !b64_create_shape_eq. reflexivity.
Qed.

End Binary64_claims.

(** X18 on the sample of the specification. *)
Lemma b64_create_shape_valid_iff_witness :
  (exists s : Binary64.Plane,
     Binary64.create_shape Binary64.sample_point Binary64.upward_normal
       [0; 1; 2]%nat (Binary64.new_plane 0.9)
     = Some s /\
     Binary64.m_is_valid s = true)
  <->
  (Binary64.too_short (Binary64.sample_point 0) (Binary64.sample_point 1)
     (Binary64.sample_point 2) = false /\
   Binary64.deviates (Binary64.m_normal_threshold (Binary64.new_plane 0.9))
     (Binary64.upward_normal 0)
     (Binary64.fitted_normal (Binary64.sample_point 0)
        (Binary64.sample_point 1) (Binary64.sample_point 2)) = false /\
   Binary64.deviates (Binary64.m_normal_threshold (Binary64.new_plane 0.9))
     (Binary64.upward_normal 1)
     (Binary64.fitted_normal (Binary64.sample_point 0)
        (Binary64.sample_point 1) (Binary64.sample_point 2)) = false /\
   Binary64.deviates (Binary64.m_normal_threshold (Binary64.new_plane 0.9))
     (Binary64.upward_normal 2)
     (Binary64.fitted_normal (Binary64.sample_point 0)
        (Binary64.sample_point 1) (Binary64.sample_point 2)) = false).
Proof.
  apply (b64_create_shape_valid_iff Binary64.sample_point
           Binary64.upward_normal 0 1 2 [] (Binary64.new_plane 0.9)).
  reflexivity.
Defined.

(** X19 on the sample of the specification with the normal (1,0,0) at the
    second point and the threshold 0.9; the other run has the normal
    (1,0,0) at the third point too. *)
Lemma b64_create_shape_rejects_deviating_normal_witness :
  exists s' : Binary64.Plane,
    Binary64.create_shape Binary64.sample_point (Binary64.sideways_at 1)
      [0; 1; 2]%nat (Binary64.new_plane 0.9)
    = Some s' /\
    Binary64.m_is_valid s' = false /\
    Binary64.create_shape Binary64.sample_point (Binary64.sideways_from 1)
      [0; 1; 2]%nat (Binary64.new_plane 0.9)
    = Some s'.
Proof.
  apply (b64_create_shape_rejects_deviating_normal Binary64.sample_point
           (Binary64.sideways_at 1) (Binary64.sideways_from 1)
           0 1 2 [] (Binary64.new_plane 0.9) 1 1).
  - reflexivity.
  - reflexivity.
  - reflexivity.
  - intros [|[|j]] idx' Hj E; try lia; injection E as E; subst idx';
      reflexivity.
Defined.
